(** * sphinx_pyodide.jsdoc: the doclet categorizer and its two directives

    A shallow embedding of [docs/sphinx_pyodide/sphinx_pyodide/jsdoc.py]:
    [PyodideAnalyzer.create_js_doclets] with its helper
    [get_object_from_json], and the [run] methods of the [JsDocContent] and
    [JsDocSummary] directives with the helpers they call.

    Python values are modelled as follows.
    - [str] is [string]; one character is one [ascii] (every literal of the
      module, the escape token's U+00AF included, fits in a byte).
    - a doclet (a JSON object read with [json.get] and [json[...]]) is a
      [gmap string string];
    - [_doclets_by_class], [items] and the [OrderedDict] of a bucket are
      dictionaries that the code iterates, so they are association lists in
      insertion order; [js_docs] is only ever indexed and is a [gmap];
    - an exception is the [Raise] branch of [result];
    - what sphinx-js, Sphinx and docutils provide (the path parser, the object
      lookup, the renderers, the summary extraction, the reST parsers) is a
      method of the classes [SphinxJs] and [Sphinx]. The path parser, the
      object lookup and the reST parser may raise; the renderers, the summary
      extraction and the nested parse are taken to return. *)

From Stdlib Require Import Ascii Arith Lia Bool.
From Stdlib Require String.
From stdpp Require Import base option list gmap strings.

Set Warnings "-register-all,-clear-no-such-hyp".


(** ** Exceptions *)

Inductive exn : Type :=
| IndexError
| KeyError (key : string)
| LibraryError (msg : string).

Inductive result (A : Type) : Type :=
| Ok (a : A)
| Raise (e : exn).

Arguments Ok {A} a.
Arguments Raise {A} e.

Definition bind {A B} (m : result A) (k : A -> result B) : result B :=
  match m with
  | Ok a => k a
  | Raise e => Raise e
  end.

Notation "'let*' x ':=' m 'in' k" := (bind m (fun x => k))
  (at level 10, x name, m at level 100, k at level 200).

Definition succeeds {A} (m : result A) : Prop := exists a, m = Ok a.

(** A [for] loop that threads a state and stops at the first exception. *)
Fixpoint for_each {A S} (body : S -> A -> result S) (l : list A) (s : S)
  : result S :=
  match l with
  | [] => Ok s
  | x :: l' => let* s' := body s x in for_each body l' s'
  end.

(** A list comprehension whose element expression may raise. *)
Fixpoint comprehension {A B} (f : A -> result B) (l : list A)
  : result (list B) :=
  match l with
  | [] => Ok []
  | x :: l' =>
      let* y := f x in
      let* ys := comprehension f l' in
      Ok (y :: ys)
  end.

(** ** Python's [str] operations *)

Module PyStr.

(** [s[0]] *)
Definition first (s : string) : result ascii :=
  match s with
  | EmptyString => Raise IndexError
  | String c _ => Ok c
  end.

(** [s[-1]] *)
Fixpoint last (s : string) : result ascii :=
  match s with
  | EmptyString => Raise IndexError
  | String c EmptyString => Ok c
  | String _ s' => last s'
  end.

(** [s[1:-1]] *)
Definition strip_ends (s : string) : string :=
  String.substring 1 (String.length s - 2) s.

(** [sub in s] *)
Fixpoint contains (sub s : string) : bool :=
  String.prefix sub s ||
  match s with
  | EmptyString => false
  | String _ s' => contains sub s'
  end.

(** [s.replace(old, new)] for a non-empty [old]: the occurrences of [old]
    are taken from left to right and do not overlap. [skip] counts the
    characters of the occurrence just replaced that are still to be
    passed over. *)
Fixpoint replace_from (old new : string) (skip : nat) (s : string) : string :=
  match s with
  | EmptyString => EmptyString
  | String c s' =>
      match skip with
      | S k => replace_from old new k s'
      | O =>
          if String.prefix old s
          then new +:+ replace_from old new (String.length old - 1) s'
          else String c (replace_from old new 0 s')
      end
  end.

(** With an empty [old], Python puts [new] before every character and at
    the end. *)
Fixpoint intersperse (new s : string) : string :=
  match s with
  | EmptyString => new
  | String c s' => new +:+ String c (intersperse new s')
  end.

Definition replace (old new s : string) : string :=
  match old with
  | EmptyString => intersperse new s
  | _ => replace_from old new 0 s
  end.

Definition is_lower (c : ascii) : bool :=
  ((97 <=? nat_of_ascii c) && (nat_of_ascii c <=? 122))%nat.
Definition is_upper (c : ascii) : bool :=
  ((65 <=? nat_of_ascii c) && (nat_of_ascii c <=? 90))%nat.
Definition to_upper (c : ascii) : ascii :=
  if is_lower c then ascii_of_nat (nat_of_ascii c - 32) else c.
Definition to_lower (c : ascii) : ascii :=
  if is_upper c then ascii_of_nat (nat_of_ascii c + 32) else c.

(** [s.title()] on ASCII text: a letter that follows a letter is
    lower-cased, any other letter is upper-cased. *)
Fixpoint title_from (after_letter : bool) (s : string) : string :=
  match s with
  | EmptyString => EmptyString
  | String c s' =>
      if is_lower c || is_upper c
      then String (if after_letter then to_lower c else to_upper c)
                  (title_from true s')
      else String c (title_from false s')
  end.

Definition title (s : string) : string := title_from false s.

(** [sep.join(l)] *)
Fixpoint join (sep : string) (l : list string) : string :=
  match l with
  | [] => EmptyString
  | [x] => x
  | x :: l' => x +:+ sep +:+ join sep l'
  end.

End PyStr.


(** ** Python's [list] and [dict] operations *)

Module PyList.

(** [l[0]] *)
Definition first {A} (l : list A) : result A :=
  match l with
  | [] => Raise IndexError
  | x :: _ => Ok x
  end.

(** [l[-1]] *)
Fixpoint last {A} (l : list A) : result A :=
  match l with
  | [] => Raise IndexError
  | [x] => Ok x
  | _ :: l' => last l'
  end.

End PyList.

(** A [dict] (or [OrderedDict]) with [str] keys, in insertion order. *)
Module PyDict.

Abbreviation t V := (list (string * V)).

(** [d[k]] *)
Fixpoint get {V} (k : string) (d : t V) : result V :=
  match d with
  | [] => Raise (KeyError k)
  | (k', v) :: d' => if String.eqb k' k then Ok v else get k d'
  end.

(** [d[k] = v]: a key that is present keeps its place. *)
Fixpoint set {V} (k : string) (v : V) (d : t V) : t V :=
  match d with
  | [] => [(k, v)]
  | (k', v') :: d' =>
      if String.eqb k' k then (k', v) :: d' else (k', v') :: set k v d'
  end.

Definition keys {V} (d : t V) : list string := map fst d.
Definition values {V} (d : t V) : list V := map snd d.

End PyDict.

(** [a and b], where [b] is evaluated only when [a] is true. *)
Definition py_and (a b : result bool) : result bool :=
  let* x := a in if x then b else Ok false.

Definition dquote : ascii := "034"%char.
Definition newline : ascii := "010"%char.
Definition backslash : ascii := "092"%char.
Definition backtick : ascii := "096"%char.

(** ** Data *)

(** A doclet as JsDoc emits it: a JSON object. *)
Abbreviation doclet := (gmap string string).

(** [json[k]] *)
Definition getitem {V} (m : gmap string V) (k : string) : result V :=
  match m !! k with
  | Some v => Ok v
  | None => Raise (KeyError k)
  end.

(** An object of the sphinx-js intermediate representation, as far as this
    module reads or writes it. [is_Function] is [isinstance(obj, Function)];
    [kind] is the attribute that [get_object_from_json] sets. *)
Record IrObject : Type := mkIr {
  name : string;
  kind : string;
  description : string;
  is_Function : bool
}.

Definition set_kind (obj : IrObject) (k : string) : IrObject :=
  {| name := name obj; kind := k;
     description := description obj; is_Function := is_Function obj |}.

Definition set_name (obj : IrObject) (n : string) : IrObject :=
  {| name := n; kind := kind obj;
     description := description obj; is_Function := is_Function obj |}.

(** A docutils node. *)
Inductive tag : Type :=
| paragraph | strong | tabular_col_spec | autosummary_table
| table | tgroup | colspec | tbody | row | entry
| other (t : string).

Inductive node : Type :=
| Text (s : string)
| Element (t : tag) (attributes : list (string * string)) (children : list node).

(** The sub-buckets of one bucket, and the three buckets. *)
Abbreviation bucket := (PyDict.t (list IrObject)).
Abbreviation js_docs_t := (gmap string (PyDict.t (list IrObject))).

(** [self._doclets_by_class]: the groups of doclets, keyed by the path
    segments of the class or namespace they are members of. *)
Abbreviation doclets_by_class_t := (list (list string * list doclet)).

(** ** The libraries *)

Class SphinxJs : Type := {
  (** [PathVisitor().visit(path_and_formal_params["path"].parse(name))] *)
  parse_path : string -> result (list string);
  (** [JsAnalyzer.get_object(path, kind)] *)
  get_object : list string -> string -> result IrObject;
  (** [AutoFunctionRenderer(...).rst(path, obj, use_short_name=False)] *)
  function_rst : list string -> IrObject -> string;
  (** [AutoAttributeRenderer(...).rst(path, obj, use_short_name=False)] *)
  attribute_rst : list string -> IrObject -> string;
  (** [AutoFunctionRenderer(...)._formal_params(obj)] *)
  formal_params : IrObject -> string
}.

Class Sphinx : Type := {
  (** [sphinx.ext.autosummary.extract_summary(doc, document)] *)
  autosummary_extract_summary : list string -> string;
  (** [sphinx.util.rst.escape] *)
  rst_escape : string -> string;
  (** [RstParser().parse(rst, doc)], then [doc.children] *)
  rst_parse : string -> result (list node);
  (** [state.nested_parse(vl, 0, node)]: the children it gives [node] *)
  nested_parse : string -> list node
}.

(** ** [class PyodideAnalyzer] *)

Module PyodideAnalyzer.
Section WithInner.
Context `{SphinxJs}.

Definition longname_to_path (longname : string) : result (list string) :=
  parse_path longname.

Definition get_object_from_json (json : doclet) : result IrObject :=
  let* longname := getitem json "longname" in
  let* path := longname_to_path longname in
  let* k := getitem json "kind" in
  let kind := if String.eqb k "function" then "function" else "attribute" in
  let* obj := get_object path kind in
  Ok (set_kind obj kind).

(** [get_val()] *)
Definition get_val : bucket := [("attribute", []); ("function", [])].

(** [{key: get_val() for key in ["globals", "pyodide", "PyProxy"]}] *)
Definition initial_js_docs : js_docs_t :=
  <["PyProxy" := get_val]> (<["pyodide" := get_val]> (<["globals" := get_val]> ∅)).

(** [[x for x in key if "/" not in x]] *)
Definition strip_slashes (key : list string) : list string :=
  List.filter (fun x => negb (PyStr.contains "/" x)) key.

(** The body of the first loop: where the group of [key] goes. *)
Definition select_group (items : PyDict.t (list doclet))
    (entry : list string * list doclet) : result (PyDict.t (list doclet)) :=
  let key := strip_slashes (fst entry) in
  let group := snd entry in
  let* is_globals :=
    (let* l := PyList.last key in Ok (String.eqb l "globalThis")) in
  let items := if is_globals then PyDict.set "globals" group items else items in
  let* is_pyodide :=
    py_and (let* f := PyList.first key in Ok (String.eqb f "pyodide."))
           (let* l := PyList.last key in Ok (String.eqb l "Module")) in
  let items := if is_pyodide then PyDict.set "pyodide" group items else items in
  let* is_pyproxy :=
    (let* f := PyList.first key in Ok (String.eqb f "pyproxy.")) in
  if is_pyproxy
  then let* old := PyDict.get "PyProxy" items in
       Ok (PyDict.set "PyProxy" (old ++ group) items)
  else Ok items.

Definition select_items (doclets_by_class : doclets_by_class_t)
  : result (PyDict.t (list doclet)) :=
  for_each select_group doclets_by_class [("PyProxy", [])].

(** [json.get("access", None) == "private"] *)
Definition is_private (json : doclet) : bool :=
  match json !! "access" with
  | Some a => String.eqb a "private"
  | None => false
  end.

(** The renaming of a quoted name to bracket notation. *)
Definition bracket_name (obj : IrObject) : result IrObject :=
  let* quoted :=
    py_and (let* c := PyStr.first (name obj) in Ok (Ascii.eqb c dquote))
           (let* c := PyStr.last (name obj) in Ok (Ascii.eqb c dquote)) in
  if quoted
  then Ok (set_name obj ("[" +:+ PyStr.strip_ends (name obj) +:+ "]"))
  else Ok obj.

(** [self.js_docs[key][obj.kind].append(obj)] *)
Definition append_obj (key : string) (obj : IrObject) (js_docs : js_docs_t)
  : result js_docs_t :=
  let* b := getitem js_docs key in
  let* l := PyDict.get (kind obj) b in
  Ok (<[key := PyDict.set (kind obj) (l ++ [obj]) b]> js_docs).

(** The body of the inner loop of the second loop. *)
Definition add_doclet (key : string) (js_docs : js_docs_t) (json : doclet)
  : result js_docs_t :=
  if is_private json then Ok js_docs
  else
    let* obj := get_object_from_json json in
    let* obj := bracket_name obj in
    append_obj key obj js_docs.

Definition add_items (js_docs : js_docs_t) (item : string * list doclet)
  : result js_docs_t :=
  for_each (add_doclet (fst item)) (snd item) js_docs.

Definition create_js_doclets (doclets_by_class : doclets_by_class_t)
  : result js_docs_t :=
  let* items := select_items doclets_by_class in
  for_each add_items items initial_js_docs.

End WithInner.
End PyodideAnalyzer.

(** ** [class JsDocContent] *)

Module JsDocContent.
Section WithApp.
Context `{SphinxJs} `{Sphinx}.

Definition get_rst (obj : IrObject) : string :=
  if is_Function obj
  then function_rst [name obj] obj
  else attribute_rst [name obj] obj.

Definition get_rst_for_group (objects : list IrObject) : list string :=
  map get_rst objects.

Definition parse_rst (rst : string) : result (list node) := rst_parse rst.

Definition blank_line : string := String newline (String newline "").

(** The list [rst] that [run] builds before it joins it. *)
Definition run_rst (js_docs : js_docs_t) (arguments : list string)
  : result (list (list string)) :=
  let* module := PyList.first arguments in
  let* values := getitem js_docs module in
  Ok ([".. js:module:: " +:+ module]
        :: map get_rst_for_group (PyDict.values values)).

Definition run (js_docs : js_docs_t) (arguments : list string)
  : result (list node) :=
  let* rst := run_rst js_docs arguments in
  let joined_rst := PyStr.join blank_line (map (PyStr.join blank_line) rst) in
  parse_rst joined_rst.

End WithApp.
End JsDocContent.

(** ** [class JsDocSummary] *)

Module JsDocSummary.
Section WithApp.
Context `{SphinxJs} `{Sphinx}.

Definition format_heading (text : string) : node :=
  Element paragraph [] [Element strong [] [Text text]].

Definition colon_esc : string :=
  "esccolon" +:+ String backslash (String "175"%char "hoa:").

Definition extract_summary (descr : string) : string :=
  PyStr.replace colon_esc ":"
    (autosummary_extract_summary [PyStr.replace ":" colon_esc descr]).

Definition get_sig (obj : IrObject) : string :=
  if is_Function obj then formal_params obj else "".

Definition get_summary_row (pkgname : string) (obj : IrObject)
  : string * string * string * string :=
  let sig := get_sig obj in
  let display_name := name obj in
  let summary := extract_summary (description obj) in
  let link_name := pkgname +:+ "." +:+ display_name in
  (display_name, sig, summary, link_name).

Definition get_summary_table (pkgname : string) (group : list IrObject)
  : list (string * string * string * string) :=
  map (get_summary_row pkgname) group.

(** One cell of [append_row]: the text is parsed into a fresh paragraph,
    which is replaced by its first child when that is a paragraph; a
    paragraph without children is kept ([IndexError] is caught). *)
Definition cell (text : string) : node :=
  let node := Element paragraph [] (nested_parse text) in
  let node :=
    match nested_parse text with
    | Element paragraph a c :: _ => Element paragraph a c
    | _ => node
    end in
  Element entry [] [node].

Definition append_row (column_texts : list string) : node :=
  Element row [] (map cell column_texts).

Definition col1 (options : gset string)
    (item : string * string * string * string) : string :=
  let '(name, sig, _, real_name) := item in
  let qualifier := "any" in
  let ref := ":" +:+ qualifier +:+ ":" +:+ String backtick
               (name +:+ " <" +:+ real_name +:+ ">" +:+ String backtick "") in
  if decide ("nosignatures" ∈ options)
  then ref
  else ref +:+ String backslash (" " +:+ rst_escape sig).

Definition format_table (options : gset string)
    (items : list (string * string * string * string)) : list node :=
  let table_spec :=
    Element tabular_col_spec [("spec", "\X{1}{2}\X{1}{2}")] [] in
  let body :=
    Element tbody []
      (map (fun item => append_row [col1 options item; item.1.2]) items) in
  let group :=
    Element tgroup [("cols", "2")]
      [Element colspec [("colwidth", "10")] [];
       Element colspec [("colwidth", "90")] [];
       body] in
  let real_table := Element table [("classes", "longtable")] [group] in
  let table := Element autosummary_table [] [real_table] in
  [table_spec; table].

(** What one pass of the loop of [run] adds to [result]. *)
Definition run_group (options : gset string) (module : string)
    (item : string * list IrObject) : list node :=
  let '(group_name, group_objects) := item in
  match group_objects with
  | [] => []
  | _ =>
      format_heading (PyStr.title group_name +:+ "s:")
        :: format_table options (get_summary_table module group_objects)
  end.

Definition run (options : gset string) (js_docs : js_docs_t)
    (arguments : list string) : result (list node) :=
  let* module := PyList.first arguments in
  let* value := getitem js_docs module in
  Ok (concat (map (run_group options module) value)).

End WithApp.
End JsDocSummary.

(** ** Vocabulary of the statements *)

Definition bucket_names : list string := ["globals"; "pyodide"; "PyProxy"].

(** The three tests of the first loop, on a key as [_doclets_by_class] has
    it: each looks at the key without its components that contain a slash. *)
Definition matches_globals (key : list string) : bool :=
  match PyList.last (PyodideAnalyzer.strip_slashes key) with
  | Ok l => String.eqb l "globalThis"
  | Raise _ => false
  end.

Definition matches_pyodide (key : list string) : bool :=
  match PyList.first (PyodideAnalyzer.strip_slashes key),
        PyList.last (PyodideAnalyzer.strip_slashes key) with
  | Ok f, Ok l => String.eqb f "pyodide." && String.eqb l "Module"
  | _, _ => false
  end.

Definition matches_pyproxy (key : list string) : bool :=
  match PyList.first (PyodideAnalyzer.strip_slashes key) with
  | Ok f => String.eqb f "pyproxy."
  | Raise _ => false
  end.

Definition matches_any (key : list string) : bool :=
  matches_globals key || matches_pyodide key || matches_pyproxy key.

(** The same three tests read on the key itself, first and last component
    as they stand. *)
Definition path_is_globals (key : list string) : bool :=
  match PyList.last key with
  | Ok l => String.eqb l "globalThis"
  | Raise _ => false
  end.

Definition path_is_pyodide (key : list string) : bool :=
  match PyList.first key, PyList.last key with
  | Ok f, Ok l => String.eqb f "pyodide." && String.eqb l "Module"
  | _, _ => false
  end.

Definition path_is_pyproxy (key : list string) : bool :=
  match PyList.first key with
  | Ok f => String.eqb f "pyproxy."
  | Raise _ => false
  end.

(** The groups of the input whose key passes a test, in input order. *)
Definition groups_matching (p : list string -> bool)
    (doclets_by_class : doclets_by_class_t) : list (list doclet) :=
  map snd (List.filter (fun e => p (fst e)) doclets_by_class).

(** Every doclet of the input, in input order. *)
Definition all_doclets (doclets_by_class : doclets_by_class_t) : list doclet :=
  concat (map snd doclets_by_class).

(** The doclets of a group that the second loop does not skip. *)
Definition retained (group : list doclet) : list doclet :=
  List.filter (fun json => negb (PyodideAnalyzer.is_private json)) group.

Definition drop_private {K} (groups : list (K * list doclet))
  : list (K * list doclet) :=
  map (fun e => (fst e, retained (snd e))) groups.

(** A name that starts and ends with a double quote. *)
Definition is_quoted (s : string) : Prop :=
  (exists t, s = String dquote t) /\ (exists u, s = u +:+ String dquote "").

(** The object that the second loop stores for a doclet it retains. *)
Definition produce `{SphinxJs} (json : doclet) : result IrObject :=
  let* obj := PyodideAnalyzer.get_object_from_json json in
  PyodideAnalyzer.bracket_name obj.

Definition of_kind (k : string) (objs : list IrObject) : list IrObject :=
  List.filter (fun o => String.eqb (kind o) k) objs.

(** The group that [items] holds under a bucket name; none is no doclet. *)
Definition items_of (b : string) (items : PyDict.t (list doclet))
  : list doclet :=
  match PyDict.get b items with
  | Ok g => g
  | Raise _ => []
  end.

(** The escape token without the colon that ends it. *)
Definition colon_body : string :=
  "esccolon" +:+ String backslash (String "175"%char "hoa").

(** A key that keeps a component once those with a slash are dropped. *)
Definition key_ok (key : list string) : bool :=
  match PyodideAnalyzer.strip_slashes key with
  | [] => false
  | _ :: _ => true
  end.

(** What one pass of the first loop does to [items] when it does not raise. *)
Definition select_step (items : PyDict.t (list doclet))
    (entry : list string * list doclet) : PyDict.t (list doclet) :=
  let key := fst entry in
  let group := snd entry in
  let items :=
    if matches_globals key then PyDict.set "globals" group items else items in
  let items :=
    if matches_pyodide key then PyDict.set "pyodide" group items else items in
  if matches_pyproxy key
  then PyDict.set "PyProxy" (items_of "PyProxy" items ++ group) items
  else items.

(** The value of a key that the loop assigns: the last group assigned, or
    what was there before. *)
Definition last_or {A} (groups : list A) (before : result A) : result A :=
  match last groups with
  | Some g => Ok g
  | None => before
  end.

(** The kind tag that [get_object_from_json] derives from a doclet. *)
Definition final_kind (json : doclet) : string :=
  match json !! "kind" with
  | Some k => if String.eqb k "function" then "function" else "attribute"
  | None => "attribute"
  end.

(** A bucket as [create_js_doclets] leaves it. *)
Definition bucket_of (objs : list IrObject) : bucket :=
  [("attribute", of_kind "attribute" objs);
   ("function", of_kind "function" objs)].

(** [js_docs[k]] is there, with its two sub-buckets in their order. *)
Definition shaped (js : js_docs_t) (k : string) : Prop :=
  exists a f, js !! k = Some [("attribute", a); ("function", f)].

(** The rows of the body of a table that [format_table] built. *)
Definition table_rows (n : node) : list node :=
  match n with
  | Element autosummary_table _
      [Element table _ [Element tgroup _ [_; _; Element tbody _ rows]]] => rows
  | _ => []
  end.

Definition node_tag (n : node) : option tag :=
  match n with
  | Text _ => None
  | Element t _ _ => Some t
  end.

(** What the summary directive emits for one sub-bucket of [n] objects:
    nothing when [n] is zero, else the heading, the column specification and
    one table of [n] rows. *)
Definition emitted (heading : string) (n : nat) (out : list node) : Prop :=
  match n with
  | 0 => out = []
  | S _ =>
      exists spec tbl,
        out = [Element paragraph [] [Element strong [] [Text heading]]; spec; tbl]
        /\ node_tag spec = Some tabular_col_spec
        /\ node_tag tbl = Some autosummary_table
        /\ length (table_rows tbl) = n
        /\ Forall (fun r => node_tag r = Some row) (table_rows tbl)
  end.

(** ** A small instance of the libraries, to run the code on *)

Definition demo_inner : SphinxJs := {|
  parse_path := fun longname => Ok [longname];
  get_object := fun path k =>
    match path with
    | [] => Raise (LibraryError "no such object")
    | n :: _ =>
        Ok {| name := n; kind := ""; description := "About " +:+ n +:+ ".";
              is_Function := String.eqb k "function" |}
    end;
  function_rst := fun _ obj => ".. js:function:: " +:+ name obj;
  attribute_rst := fun _ obj => ".. js:attribute:: " +:+ name obj;
  formal_params := fun _ => "(x)"
|}.

(** The summary extraction of this instance returns a single line as it is,
    which is what autosummary does with a one-sentence paragraph. *)
Definition demo_sphinx : Sphinx := {|
  autosummary_extract_summary := fun doc =>
    match doc with
    | [line] => line
    | _ => ""
    end;
  rst_escape := fun text => text;
  rst_parse := fun rst => Ok [Element paragraph [] [Text rst]];
  nested_parse := fun text => [Element paragraph [] [Text text]]
|}.

Definition mk_doclet (longname k : string) (access : option string) : doclet :=
  let d : doclet := <["longname" := longname]> (<["kind" := k]> ∅) in
  match access with
  | Some a => <["access" := a]> d
  | None => d
  end.

Definition quoted (inner : string) : string :=
  String dquote (inner +:+ String dquote "").

Definition demo_input : doclets_by_class_t :=
  [ (["./"; "pyodide."; "globalThis"],
     [mk_doclet "foo" "function" None;
      mk_doclet "hidden" "function" (Some "private")]);
    (["./"; "pyodide."; "Module"],
     [mk_doclet (quoted "bar") "member" None;
      mk_doclet "runPython" "function" (Some "public")]);
    (["./"; "pyproxy."; "PyProxyClass"],
     [mk_doclet "type" "member" None]);
    (["./"; "pyproxy."; "PyProxyBufferMethods"],
     [mk_doclet "getBuffer" "function" None;
      mk_doclet "secret" "member" (Some "private")]);
    (["./"; "other."; "Thing"],
     [mk_doclet "ignored" "function" None]) ].

(** The input with every key stripped of its components that contain a
    slash. *)
Definition strip_keys (doclets_by_class : doclets_by_class_t)
  : doclets_by_class_t :=
  map (fun e => (PyodideAnalyzer.strip_slashes (fst e), snd e)) doclets_by_class.

(** A table row of two cells, each holding one paragraph. *)
Definition two_paragraph_row (r : node) : Prop :=
  exists a1 c1 a2 c2,
    r = Element row []
          [Element entry [] [Element paragraph a1 c1];
           Element entry [] [Element paragraph a2 c2]].

(** [js_docs] for [demo_input]. *)
Definition demo_js_docs : js_docs_t :=
  match @PyodideAnalyzer.create_js_doclets demo_inner demo_input with
  | Ok js => js
  | Raise _ => ∅
  end.

(** * Theorems *)

Example replace_ex1 : PyStr.replace "aa" "b" "aaaxaa" = "baxb".
Proof. reflexivity. Qed.

Example replace_ex2 : PyStr.replace "" "-" "abc" = "-a-b-c-".
Proof. reflexivity. Qed.

Example title_ex : PyStr.title "attribute" = "Attribute".
Proof. reflexivity. Qed.

Example strip_ends_ex :
  PyStr.strip_ends "abc" = "b" /\ PyStr.strip_ends "a" = "" /\
  PyStr.strip_ends "" = "".
Proof. repeat split. Qed.

Example demo_create :
  (js ← match @PyodideAnalyzer.create_js_doclets demo_inner demo_input with
        | Ok js => Some js | Raise _ => None end;
   Some (js !! "globals", js !! "pyodide", js !! "PyProxy")) =
  Some (Some [("attribute", []);
              ("function", [mkIr "foo" "function" "About foo." true])],
        Some [("attribute", [mkIr "[bar]" "attribute"
                               ("About " +:+ quoted "bar" +:+ ".") false]);
              ("function", [mkIr "runPython" "function" "About runPython." true])],
        Some [("attribute", [mkIr "type" "attribute" "About type." false]);
              ("function", [mkIr "getBuffer" "function" "About getBuffer." true])]).
Proof. vm_compute. reflexivity. Qed.

(** ** Strings: the colon escape can be undone *)

Lemma prefix_get_end (u e : string) (c : ascii) :
  String.prefix (u +:+ String c "") e = true ->
  String.get (String.length u) e = Some c.
Proof.
  revert e. induction u as [|a u IH]; intros [|b e]; simpl; try discriminate.
  - destruct (ascii_dec c b) as [->|]; [reflexivity | discriminate].
  - destruct (ascii_dec a b); [apply IH | discriminate].
Qed.

(** A token that ends in its only [sep] does not start one character before
    a text that has no [sep] early enough. *)
Lemma prefix_miss (u e : string) (sep c : ascii) :
  c <> sep ->
  (forall n, n < String.length u -> String.get n e <> Some sep) ->
  String.prefix (u +:+ String sep "") (String c e) = false.
Proof.
  intros ne He.
  destruct (String.prefix (u +:+ String sep "") (String c e)) eqn:Hp;
    [exfalso | reflexivity].
  destruct u as [|b u']; simpl in Hp.
  - destruct (ascii_dec sep c); congruence.
  - destruct (ascii_dec b c); [|discriminate].
    apply prefix_get_end in Hp. apply (He (String.length u')); [simpl; lia | exact Hp].
Qed.

Section EscapeRoundTrip.

Variables (sep : ascii) (body : string).
Hypothesis body_free : forall n, String.get n body <> Some sep.

Let token : string := body +:+ String sep "".
Let escape (t : string) : string := PyStr.replace (String sep "") token t.
Let unescape (s : string) : string := PyStr.replace token (String sep "") s.

Lemma append_assoc (u v w : string) : (u +:+ v) +:+ w = u +:+ (v +:+ w).
Proof.
  induction u as [|c u IH]; [reflexivity|].
  change (String c ((u +:+ v) +:+ w) = String c (u +:+ (v +:+ w))).
  now rewrite IH.
Qed.

Lemma prefix_append (u s : string) : String.prefix u (u +:+ s) = true.
Proof.
  induction u as [|c u IH]; simpl.
  - now destruct s.
  - destruct (ascii_dec c c) as [_|ne]; [exact IH | now elim ne].
Qed.

Lemma get_append_l (u s : string) (n : nat) :
  n < String.length u -> String.get n (u +:+ s) = String.get n u.
Proof.
  revert n. induction u as [|a u IH]; simpl; intros n Hn; [lia|].
  destruct n as [|n]; [reflexivity | apply IH; lia].
Qed.

Lemma replace_from_skip (old new u s : string) :
  PyStr.replace_from old new (String.length u) (u +:+ s)
  = PyStr.replace_from old new 0 s.
Proof. induction u as [|a u IH]; simpl; [reflexivity | exact IH]. Qed.

Lemma replace_from_hit (c : ascii) (old' new s : string) :
  PyStr.replace_from (String c old') new 0 (String c old' +:+ s)
  = new +:+ PyStr.replace_from (String c old') new 0 s.
Proof.
  change (String c old' +:+ s) with (String c (old' +:+ s)).
  cbn [PyStr.replace_from].
  change (String c (old' +:+ s)) with (String c old' +:+ s).
  rewrite prefix_append.
  replace (String.length (String c old') - 1) with (String.length old')
    by (cbn [String.length]; lia).
  now rewrite replace_from_skip.
Qed.

Lemma prefix_token_miss (c : ascii) (e : string) :
  c <> sep ->
  (forall n, n < String.length body -> String.get n e <> Some sep) ->
  String.prefix token (String c e) = false.
Proof. intros ne He. now apply prefix_miss. Qed.

Lemma token_cons : exists c r, token = String c r.
Proof.
  unfold token. destruct body as [|a r]; simpl; eauto.
Qed.

Lemma escape_cons (c : ascii) (t : string) :
  escape (String c t)
  = if Ascii.eqb c sep then token +:+ escape t else String c (escape t).
Proof.
  unfold escape, PyStr.replace. cbn [PyStr.replace_from String.prefix].
  destruct (ascii_dec sep c) as [<-|ne].
  - rewrite Ascii.eqb_refl. now destruct t.
  - destruct (Ascii.eqb_spec c sep) as [->|_]; [now elim ne | reflexivity].
Qed.

Lemma escape_no_early_sep (t : string) (n : nat) :
  n < String.length body -> String.get n (escape t) <> Some sep.
Proof.
  revert n. induction t as [|c t IH]; intros n Hn.
  - unfold escape. simpl. now destruct n.
  - rewrite escape_cons. destruct (Ascii.eqb_spec c sep) as [->|ne].
    + unfold token. rewrite append_assoc.
      rewrite get_append_l by exact Hn. apply body_free.
    + destruct n as [|n]; simpl.
      * congruence.
      * apply IH. lia.
Qed.

Lemma unescape_escape (t : string) : unescape (escape t) = t.
Proof.
  destruct token_cons as (a & r & Htok).
  unfold unescape, PyStr.replace. rewrite Htok.
  induction t as [|c t IH].
  - reflexivity.
  - rewrite escape_cons. destruct (Ascii.eqb_spec c sep) as [->|ne].
    + rewrite Htok, replace_from_hit. simpl. now rewrite IH.
    + cbn [PyStr.replace_from]. rewrite <- Htok.
      rewrite (prefix_token_miss c (escape t) ne (escape_no_early_sep t)).
      rewrite Htok. now rewrite IH.
Qed.

End EscapeRoundTrip.

(** ** The summary text *)

Lemma colon_esc_split : JsDocSummary.colon_esc = colon_body +:+ ":".
Proof. reflexivity. Qed.

Lemma colon_body_free (n : nat) : String.get n colon_body <> Some ":"%char.
Proof.
  do 13 (destruct n as [|n]; [vm_compute; discriminate|]).
  simpl. discriminate.
Qed.

Lemma colons_round_trip (t : string) :
  PyStr.replace JsDocSummary.colon_esc ":"
    (PyStr.replace ":" JsDocSummary.colon_esc t) = t.
Proof.
  rewrite colon_esc_split.
  exact (unescape_escape ":"%char colon_body colon_body_free t).
Qed.

Example extract_summary_ex :
  @JsDocSummary.extract_summary demo_sphinx "Load a package: fast." =
  "Load a package: fast.".
Proof. reflexivity. Qed.

(** C9, as amended: the summary is the library's extraction of the
    description in which every colon is replaced by the escape token, with
    every token then replaced by a colon; and whenever the library returns
    the escaped form of a text [t], the summary is [t] itself, each of its
    colons restored. *)
Theorem C9_extract_summary_restores_colons `{Sphinx} (descr t : string) :
  autosummary_extract_summary [PyStr.replace ":" JsDocSummary.colon_esc descr]
    = PyStr.replace ":" JsDocSummary.colon_esc t ->
  JsDocSummary.extract_summary descr
    = PyStr.replace JsDocSummary.colon_esc ":"
        (autosummary_extract_summary
           [PyStr.replace ":" JsDocSummary.colon_esc descr])
  /\ JsDocSummary.extract_summary descr = t.
Proof.
  intros Hlib. split; [reflexivity|].
  unfold JsDocSummary.extract_summary. rewrite Hlib. apply colons_round_trip.
Qed.

Lemma C9_extract_summary_restores_colons_witness :
  @autosummary_extract_summary demo_sphinx
    [PyStr.replace ":" JsDocSummary.colon_esc "a: b"]
    = PyStr.replace ":" JsDocSummary.colon_esc "a: b"
  /\ @JsDocSummary.extract_summary demo_sphinx "a: b" = "a: b".
Proof.
  split; [reflexivity|].
  apply (@C9_extract_summary_restores_colons demo_sphinx "a: b" "a: b").
  reflexivity.
Defined.

(** C9, as stated, fails: for the description that is the escape token
    itself, and a library that returns a one-line text as it is, the summary
    is the token, so it does contain it. *)
Lemma C9_token_in_summary :
  @JsDocSummary.extract_summary demo_sphinx JsDocSummary.colon_esc
    = JsDocSummary.colon_esc
  /\ PyStr.contains JsDocSummary.colon_esc
       (@JsDocSummary.extract_summary demo_sphinx JsDocSummary.colon_esc)
     = true.
Proof. split; reflexivity. Qed.

(** ** Dictionaries in insertion order *)

Section PyDictFacts.
Context {V : Type}.
Implicit Types (d : PyDict.t V) (k : string) (v : V).

Lemma get_set_eq k v d : PyDict.get k (PyDict.set k v d) = Ok v.
Proof.
  induction d as [|[k' v'] d IH]; simpl.
  - now rewrite String.eqb_refl.
  - destruct (String.eqb_spec k' k) as [->|ne]; simpl.
    + now rewrite String.eqb_refl.
    + destruct (String.eqb_spec k' k); [contradiction | exact IH].
Qed.

Lemma get_set_ne k k' v d :
  k <> k' -> PyDict.get k (PyDict.set k' v d) = PyDict.get k d.
Proof.
  intros ne. induction d as [|[k0 v0] d IH]; simpl.
  - destruct (String.eqb_spec k' k); [congruence | reflexivity].
  - destruct (String.eqb_spec k0 k') as [->|ne0]; simpl.
    + destruct (String.eqb_spec k' k); [congruence | reflexivity].
    + destruct (String.eqb_spec k0 k); [reflexivity | exact IH].
Qed.

Lemma keys_set k v d :
  PyDict.keys (PyDict.set k v d)
  = if decide (k ∈ PyDict.keys d) then PyDict.keys d else PyDict.keys d ++ [k].
Proof.
  unfold PyDict.keys. induction d as [|[k' v'] d IH]; simpl.
  - reflexivity.
  - destruct (String.eqb_spec k' k) as [->|ne]; simpl.
    + rewrite decide_True by set_solver. reflexivity.
    + rewrite IH. destruct (decide (k ∈ map fst d)).
      * rewrite decide_True by set_solver. reflexivity.
      * rewrite decide_False by set_solver. reflexivity.
Qed.

Lemma keys_set_NoDup k v d :
  NoDup (PyDict.keys d) -> NoDup (PyDict.keys (PyDict.set k v d)).
Proof.
  intros Hd. rewrite keys_set. destruct (decide (k ∈ PyDict.keys d)); [exact Hd|].
  apply NoDup_app. repeat split; [exact Hd | | apply NoDup_singleton].
  intros x Hx Hk. apply list_elem_of_singleton in Hk. congruence.
Qed.

Lemma keys_set_elem k v d x :
  x ∈ PyDict.keys (PyDict.set k v d) <-> x = k \/ x ∈ PyDict.keys d.
Proof.
  rewrite keys_set. destruct (decide (k ∈ PyDict.keys d)); set_solver.
Qed.

Lemma get_not_key k d :
  k ∉ PyDict.keys d -> PyDict.get k d = Raise (KeyError k).
Proof.
  unfold PyDict.keys. induction d as [|[k' v'] d IH]; simpl; intros Hk.
  - reflexivity.
  - destruct (String.eqb_spec k' k) as [->|ne]; [set_solver | apply IH; set_solver].
Qed.

Lemma get_Ok_key k v d : PyDict.get k d = Ok v -> k ∈ PyDict.keys d.
Proof.
  intros Hg. destruct (decide (k ∈ PyDict.keys d)) as [|Hn]; [assumption|].
  rewrite (get_not_key _ _ Hn) in Hg. discriminate.
Qed.

End PyDictFacts.

(** ** The first loop: selection of the groups *)

Lemma last_cons_Ok {A} (x : A) (l : list A) : exists y, PyList.last (x :: l) = Ok y.
Proof.
  revert x. induction l as [|z l IH]; intros x; [now exists x|].
  destruct (IH z) as [y Hy]. exists y. exact Hy.
Qed.

Lemma last_or_cons {A} (g : A) (gs : list A) (before : result A) :
  last_or (g :: gs) before = last_or gs (Ok g).
Proof.
  unfold last_or. destruct gs as [|g' gs]; [reflexivity|].
  change (last (g :: g' :: gs)) with (last (g' :: gs)).
  destruct (last (g' :: gs)) eqn:E; [reflexivity|].
  now apply last_None in E.
Qed.

Lemma groups_matching_cons p (e : list string * list doclet) rest :
  groups_matching p (e :: rest)
  = if p (fst e) then snd e :: groups_matching p rest
    else groups_matching p rest.
Proof. unfold groups_matching. simpl. now destruct (p (fst e)). Qed.

Lemma select_group_eq items (e : list string * list doclet) p0 :
  PyDict.get "PyProxy" items = Ok p0 ->
  PyodideAnalyzer.select_group items e
  = if key_ok (fst e) then Ok (select_step items e) else Raise IndexError.
Proof.
  intros Hp. destruct e as [key group].
  unfold PyodideAnalyzer.select_group, select_step, key_ok,
    matches_globals, matches_pyodide, matches_pyproxy. simpl fst; simpl snd.
  destruct (PyodideAnalyzer.strip_slashes key) as [|x k]; [reflexivity|].
  destruct (last_cons_Ok x k) as [l ->].
  cbn [PyList.first bind py_and].
  set (i1 := if String.eqb l "globalThis" then _ else _).
  assert (H1 : PyDict.get "PyProxy" i1 = Ok p0).
  { subst i1. destruct (String.eqb l "globalThis"); [|exact Hp].
    rewrite get_set_ne by discriminate. exact Hp. }
  assert (Hand : (if String.eqb x "pyodide." then Ok (String.eqb l "Module")
                  else Ok false)
                 = Ok (String.eqb x "pyodide." && String.eqb l "Module")).
  { now destruct (String.eqb x "pyodide."). }
  rewrite Hand. cbn [bind].
  set (i2 := if String.eqb x "pyodide." && String.eqb l "Module" then _ else _).
  assert (H2 : PyDict.get "PyProxy" i2 = Ok p0).
  { subst i2. destruct (_ && _); [|exact H1].
    rewrite get_set_ne by discriminate. exact H1. }
  destruct (String.eqb x "pyproxy."); [|reflexivity].
  unfold items_of. rewrite H2. reflexivity.
Qed.

Lemma select_step_PyProxy items e p0 :
  PyDict.get "PyProxy" items = Ok p0 ->
  PyDict.get "PyProxy" (select_step items e)
  = Ok (p0 ++ if matches_pyproxy (fst e) then snd e else []).
Proof.
  intros Hp. unfold select_step.
  set (i1 := if matches_globals (fst e) then _ else _).
  assert (H1 : PyDict.get "PyProxy" i1 = Ok p0).
  { subst i1. destruct (matches_globals _); [|exact Hp].
    rewrite get_set_ne by discriminate. exact Hp. }
  set (i2 := if matches_pyodide (fst e) then _ else _).
  assert (H2 : PyDict.get "PyProxy" i2 = Ok p0).
  { subst i2. destruct (matches_pyodide _); [|exact H1].
    rewrite get_set_ne by discriminate. exact H1. }
  destruct (matches_pyproxy _).
  - rewrite get_set_eq. unfold items_of. now rewrite H2.
  - now rewrite H2, app_nil_r.
Qed.

Lemma select_step_globals items e :
  PyDict.get "globals" (select_step items e)
  = if matches_globals (fst e) then Ok (snd e) else PyDict.get "globals" items.
Proof.
  unfold select_step.
  destruct (matches_pyproxy _), (matches_pyodide _), (matches_globals _);
    repeat (rewrite get_set_ne by discriminate);
    rewrite ?get_set_eq; reflexivity.
Qed.

Lemma select_step_pyodide items e :
  PyDict.get "pyodide" (select_step items e)
  = if matches_pyodide (fst e) then Ok (snd e) else PyDict.get "pyodide" items.
Proof.
  unfold select_step.
  destruct (matches_pyproxy _), (matches_pyodide _), (matches_globals _);
    repeat (rewrite get_set_ne by discriminate);
    rewrite ?get_set_eq; reflexivity.
Qed.

Lemma select_step_keys items e :
  NoDup (PyDict.keys items) /\ Forall (fun k => k ∈ bucket_names) (PyDict.keys items) ->
  NoDup (PyDict.keys (select_step items e))
  /\ Forall (fun k => k ∈ bucket_names) (PyDict.keys (select_step items e)).
Proof.
  assert (Hset : forall k (g : list doclet) d, k ∈ bucket_names ->
            NoDup (PyDict.keys d) /\ Forall (fun k => k ∈ bucket_names) (PyDict.keys d) ->
            NoDup (PyDict.keys (PyDict.set k g d))
            /\ Forall (fun k => k ∈ bucket_names) (PyDict.keys (PyDict.set k g d))).
  { intros k g d Hk [Hn Hf]. split; [now apply keys_set_NoDup|].
    apply Forall_forall. intros x Hx. apply keys_set_elem in Hx as [->|Hx]; [exact Hk|].
    rewrite Forall_forall in Hf. now apply Hf. }
  intros Hi. unfold select_step.
  destruct (matches_pyproxy _), (matches_pyodide _), (matches_globals _);
    repeat (apply Hset; [unfold bucket_names; set_solver|]); exact Hi.
Qed.

Lemma select_loop_eq input : forall items p0,
  PyDict.get "PyProxy" items = Ok p0 ->
  for_each PyodideAnalyzer.select_group input items
  = if forallb (fun e => key_ok (fst e)) input
    then Ok (fold_left select_step input items)
    else Raise IndexError.
Proof.
  induction input as [|e input IH]; intros items p0 Hp; [reflexivity|].
  cbn [for_each forallb fold_left]. rewrite (select_group_eq _ _ _ Hp).
  destruct (key_ok (fst e)); [|reflexivity].
  cbn [bind andb]. exact (IH _ _ (select_step_PyProxy items e p0 Hp)).
Qed.

Lemma select_fold_lookups input : forall items p0,
  PyDict.get "PyProxy" items = Ok p0 ->
  let items' := fold_left select_step input items in
  PyDict.get "PyProxy" items'
    = Ok (p0 ++ concat (groups_matching matches_pyproxy input))
  /\ PyDict.get "globals" items'
    = last_or (groups_matching matches_globals input) (PyDict.get "globals" items)
  /\ PyDict.get "pyodide" items'
    = last_or (groups_matching matches_pyodide input) (PyDict.get "pyodide" items).
Proof.
  induction input as [|e input IH]; intros items p0 Hp; cbn [fold_left].
  - cbn. now rewrite app_nil_r.
  - destruct (IH _ _ (select_step_PyProxy items e p0 Hp)) as (Hx & Hg & Ho).
    cbv zeta. rewrite Hx, Hg, Ho, !groups_matching_cons.
    rewrite select_step_globals, select_step_pyodide.
    repeat split.
    + destruct (matches_pyproxy (fst e)); cbn [concat];
        now rewrite ?app_nil_r, ?app_assoc.
    + destruct (matches_globals (fst e)); [now rewrite last_or_cons | reflexivity].
    + destruct (matches_pyodide (fst e)); [now rewrite last_or_cons | reflexivity].
Qed.

Lemma select_fold_keys input : forall items,
  NoDup (PyDict.keys items) /\ Forall (fun k => k ∈ bucket_names) (PyDict.keys items) ->
  NoDup (PyDict.keys (fold_left select_step input items))
  /\ Forall (fun k => k ∈ bucket_names) (PyDict.keys (fold_left select_step input items)).
Proof.
  induction input as [|e input IH]; intros items Hi; [exact Hi|].
  cbn [fold_left]. apply IH. now apply select_step_keys.
Qed.

Lemma select_items_eq input :
  PyodideAnalyzer.select_items input
  = if forallb (fun e => key_ok (fst e)) input
    then Ok (fold_left select_step input [("PyProxy", [])])
    else Raise IndexError.
Proof. now apply (select_loop_eq input _ []). Qed.

Lemma select_step_unmatched items e :
  matches_any (fst e) = false -> select_step items e = items.
Proof.
  unfold matches_any, select_step. intros Hm.
  apply orb_false_iff in Hm as [Hm Hx]. apply orb_false_iff in Hm as [Hg Ho].
  now rewrite Hg, Ho, Hx.
Qed.

Lemma select_fold_matched input : forall items,
  fold_left select_step (List.filter (fun e => matches_any (fst e)) input) items
  = fold_left select_step input items.
Proof.
  induction input as [|e input IH]; intros items; [reflexivity|].
  cbn [List.filter fold_left]. destruct (matches_any (fst e)) eqn:Hm.
  - cbn [fold_left]. apply IH.
  - rewrite (select_step_unmatched _ _ Hm). apply IH.
Qed.

Lemma forallb_filter {A} (p q : A -> bool) (l : list A) :
  forallb p l = true -> forallb p (List.filter q l) = true.
Proof.
  induction l as [|x l IH]; [reflexivity|]. cbn [forallb List.filter].
  intros Hp. apply andb_true_iff in Hp as [Hx Hl].
  destruct (q x); cbn [forallb]; rewrite ?Hx; now apply IH.
Qed.

Example select_items_demo :
  PyodideAnalyzer.select_items demo_input
  = Ok [("PyProxy", [mk_doclet "type" "member" None;
                     mk_doclet "getBuffer" "function" None;
                     mk_doclet "secret" "member" (Some "private")]);
        ("globals", [mk_doclet "foo" "function" None;
                     mk_doclet "hidden" "function" (Some "private")]);
        ("pyodide", [mk_doclet (quoted "bar") "member" None;
                     mk_doclet "runPython" "function" (Some "public")])].
Proof. vm_compute. reflexivity. Qed.

(** C1, as amended: the three tests read the key without its components
    that contain a slash. When every key keeps a component, the selection
    returns; "globals" is the last group whose stripped key ends in
    [globalThis] (no such group, no such entry), "pyodide" is the last group
    whose stripped key starts with [pyodide.] and ends in [Module], "PyProxy"
    is the concatenation, in input order, of the groups whose stripped key
    starts with [pyproxy.]; there is no other entry, and the groups that pass
    no test can be removed from the input without changing the outcome. *)
Theorem C1_selection_rule (input : doclets_by_class_t) :
  forallb (fun e => key_ok (fst e)) input = true ->
  exists items,
    PyodideAnalyzer.select_items input = Ok items
    /\ PyDict.get "globals" items
       = last_or (groups_matching matches_globals input)
                 (Raise (KeyError "globals"))
    /\ PyDict.get "pyodide" items
       = last_or (groups_matching matches_pyodide input)
                 (Raise (KeyError "pyodide"))
    /\ PyDict.get "PyProxy" items
       = Ok (concat (groups_matching matches_pyproxy input))
    /\ (forall k, k ∈ PyDict.keys items -> k ∈ bucket_names)
    /\ PyodideAnalyzer.select_items
         (List.filter (fun e => matches_any (fst e)) input) = Ok items.
Proof.
  intros Hok. exists (fold_left select_step input [("PyProxy", [])]).
  rewrite !select_items_eq, Hok, (forallb_filter _ _ _ Hok), select_fold_matched.
  destruct (select_fold_lookups input [("PyProxy", [])] [] eq_refl)
    as (Hx & Hg & Ho).
  repeat split; try assumption.
  intros k Hk.
  destruct (select_fold_keys input [("PyProxy", [])]) as [_ Hf].
  - split; [apply NoDup_singleton|]. repeat constructor.
  - rewrite Forall_forall in Hf. now apply Hf.
Qed.

Lemma C1_selection_rule_witness :
  forallb (fun e => key_ok (fst e)) demo_input = true
  /\ exists items,
    PyodideAnalyzer.select_items demo_input = Ok items
    /\ PyDict.get "globals" items
       = last_or (groups_matching matches_globals demo_input)
                 (Raise (KeyError "globals"))
    /\ PyDict.get "pyodide" items
       = last_or (groups_matching matches_pyodide demo_input)
                 (Raise (KeyError "pyodide"))
    /\ PyDict.get "PyProxy" items
       = Ok (concat (groups_matching matches_pyproxy demo_input))
    /\ (forall k, k ∈ PyDict.keys items -> k ∈ bucket_names)
    /\ PyodideAnalyzer.select_items
         (List.filter (fun e => matches_any (fst e)) demo_input) = Ok items.
Proof. split; [reflexivity | apply (C1_selection_rule demo_input); reflexivity]. Defined.

(** C1, as stated, fails twice. A key whose own first component is [./]
    and whose last is a class name passes none of the three tests when they
    are read on the path as it stands, yet its group is in "PyProxy". And of
    two groups whose paths both end in [globalThis], the first is not the
    "globals" bucket. *)
Lemma C1_path_as_it_stands_fails :
  let key := ["./"; "pyproxy."; "PyProxyClass"] in
  let d := mk_doclet "type" "member" None in
  let d1 := mk_doclet "foo" "function" None in
  let d2 := mk_doclet "baz" "function" None in
  (path_is_globals key = false /\ path_is_pyodide key = false
   /\ path_is_pyproxy key = false
   /\ PyodideAnalyzer.select_items [(key, [d])] = Ok [("PyProxy", [d])])
  /\ (path_is_globals ["a."; "globalThis"] = true
      /\ PyodideAnalyzer.select_items
           [(["a."; "globalThis"], [d1]); (["b."; "globalThis"], [d2])]
         = Ok [("PyProxy", []); ("globals", [d2])]).
Proof. vm_compute. repeat split. Qed.

(** ** The three tests *)

Lemma eqb_two_literals (s a b : string) :
  a <> b -> String.eqb s a && String.eqb s b = false.
Proof.
  intros ne. destruct (String.eqb_spec s a) as [->|]; [|reflexivity].
  now apply String.eqb_neq.
Qed.

Lemma tests_exclusive (key : list string) :
  matches_pyodide key && matches_globals key = false
  /\ matches_pyodide key && matches_pyproxy key = false.
Proof.
  unfold matches_pyodide, matches_globals, matches_pyproxy.
  destruct (PyodideAnalyzer.strip_slashes key) as [|x k]; [now cbn|].
  destruct (last_cons_Ok x k) as [l ->]. cbn [PyList.first].
  assert (Hl : String.eqb l "Module" && String.eqb l "globalThis" = false)
    by (now apply eqb_two_literals).
  assert (Hx : String.eqb x "pyodide." && String.eqb x "pyproxy." = false)
    by (now apply eqb_two_literals).
  destruct (String.eqb l "Module"), (String.eqb l "globalThis"),
    (String.eqb x "pyodide."), (String.eqb x "pyproxy."); try discriminate;
    repeat split.
Qed.

Lemma groups_matching_app p (l1 l2 : doclets_by_class_t) :
  groups_matching p (l1 ++ l2) = groups_matching p l1 ++ groups_matching p l2.
Proof. unfold groups_matching. now rewrite List.filter_app, map_app. Qed.

Lemma last_or_middle {A} (a b : list A) (g : A) (before : result A) :
  last_or (a ++ g :: b) before = last_or b (Ok g).
Proof.
  revert before. induction a as [|x a IH]; intros before.
  - apply last_or_cons.
  - cbn [app]. rewrite last_or_cons. apply IH.
Qed.

(** C5, as amended: the "pyodide" test excludes each of the other two, so
    no key passes all three, while the "globals" and "PyProxy" tests can
    both hold. When the selection returns, a group changes only the entries
    whose test its key passes, hence at most two: if its key passes the
    "PyProxy" test, the group is part of the "PyProxy" entry, between the
    matching groups before it and those after it; if its key passes the
    "globals" (or "pyodide") test, the entry is the last later group that
    passes the same test, and the group itself when there is none; and an
    entry whose test the key fails is what it is on the input without the
    group. *)
Theorem C5_tests_and_placement (pre post : doclets_by_class_t)
    (key : list string) (group : list doclet) :
  forallb (fun e => key_ok (fst e)) (pre ++ (key, group) :: post) = true ->
  matches_pyodide key && matches_globals key = false
  /\ matches_pyodide key && matches_pyproxy key = false
  /\ exists items without,
       PyodideAnalyzer.select_items (pre ++ (key, group) :: post) = Ok items
       /\ PyodideAnalyzer.select_items (pre ++ post) = Ok without
       /\ (matches_pyproxy key = true ->
           PyDict.get "PyProxy" items
           = Ok (concat (groups_matching matches_pyproxy pre) ++ group
                 ++ concat (groups_matching matches_pyproxy post)))
       /\ (matches_globals key = true ->
           PyDict.get "globals" items
           = last_or (groups_matching matches_globals post) (Ok group))
       /\ (matches_pyodide key = true ->
           PyDict.get "pyodide" items
           = last_or (groups_matching matches_pyodide post) (Ok group))
       /\ (matches_pyproxy key = false ->
           PyDict.get "PyProxy" items = PyDict.get "PyProxy" without)
       /\ (matches_globals key = false ->
           PyDict.get "globals" items = PyDict.get "globals" without)
       /\ (matches_pyodide key = false ->
           PyDict.get "pyodide" items = PyDict.get "pyodide" without).
Proof.
  intros Hok. destruct (tests_exclusive key) as [Hg Hx].
  split; [exact Hg|]. split; [exact Hx|].
  assert (Hok' : forallb (fun e => key_ok (fst e)) (pre ++ post) = true).
  { rewrite forallb_app in Hok |- *. cbn [forallb] in Hok.
    apply andb_true_iff in Hok as [Hp Hq]. apply andb_true_iff in Hq as [_ Hq].
    now rewrite Hp, Hq. }
  eexists _, _. rewrite !select_items_eq, Hok, Hok'.
  split; [reflexivity|]. split; [reflexivity|].
  destruct (select_fold_lookups (pre ++ (key, group) :: post)
              [("PyProxy", [])] [] eq_refl) as (Px & Pg & Po).
  destruct (select_fold_lookups (pre ++ post) [("PyProxy", [])] [] eq_refl)
    as (Qx & Qg & Qo).
  cbv zeta in Px, Pg, Po, Qx, Qg, Qo. rewrite Px, Pg, Po, Qx, Qg, Qo.
  rewrite !groups_matching_app, !groups_matching_cons. cbn [fst snd app].
  repeat split; intros ->; rewrite ?concat_app; cbn [concat];
    rewrite ?last_or_middle; reflexivity.
Qed.

Lemma C5_tests_and_placement_witness :
  let e1 := mk_doclet "foo" "function" None in
  let e2 := mk_doclet "baz" "function" None in
  let key := ["./"; "pyproxy."; "globalThis"] in
  let post := [(["./"; "pyodide."; "globalThis"], [e2])] in
  forallb (fun e => key_ok (fst e)) ([] ++ (key, [e1]) :: post) = true
  /\ exists items,
       PyodideAnalyzer.select_items ([] ++ (key, [e1]) :: post) = Ok items
       /\ PyDict.get "PyProxy" items = Ok [e1]
       /\ PyDict.get "globals" items = Ok [e2].
Proof.
  intros e1 e2 key post. split; [reflexivity|].
  destruct (C5_tests_and_placement [] post key [e1])
    as (_ & _ & items & without & Hsel & _ & Hx & Hg & _); [reflexivity|].
  exists items. split; [exact Hsel|].
  split; [rewrite Hx by reflexivity | rewrite Hg by reflexivity]; reflexivity.
Defined.

(** C5, as stated, fails: a key that starts with [pyproxy.] and ends in
    [globalThis] passes two tests, and its group is put in two buckets. *)
Lemma C5_two_tests_hold :
  let key := ["pyproxy."; "globalThis"] in
  let d := mk_doclet "foo" "function" None in
  path_is_globals key = true /\ path_is_pyproxy key = true
  /\ matches_globals key = true /\ matches_pyproxy key = true
  /\ PyodideAnalyzer.select_items [(key, [d])]
     = Ok [("PyProxy", [d]); ("globals", [d])].
Proof. vm_compute. repeat split. Qed.

(** ** The second loop: filling the buckets *)

Section SecondLoop.
Context `{SphinxJs}.

Lemma final_kind_cases (json : doclet) :
  final_kind json = "attribute" \/ final_kind json = "function".
Proof.
  unfold final_kind. destruct (json !! "kind") as [k|]; [|now left].
  destruct (String.eqb k "function"); [now right | now left].
Qed.

Lemma get_object_from_json_kind (json : doclet) (o : IrObject) :
  PyodideAnalyzer.get_object_from_json json = Ok o ->
  kind o = final_kind json
  /\ exists path obj0,
       get_object path (final_kind json) = Ok obj0
       /\ o = set_kind obj0 (final_kind json).
Proof.
  unfold PyodideAnalyzer.get_object_from_json, final_kind, getitem.
  destruct (json !! "longname") as [ln|]; [|discriminate]. cbn [bind].
  destruct (PyodideAnalyzer.longname_to_path ln) as [path|]; [|discriminate].
  cbn [bind]. destruct (json !! "kind") as [k|]; [|discriminate]. cbn [bind].
  destruct (get_object path _) as [obj0|] eqn:Hg; [|discriminate]. cbn [bind].
  intros [= <-]. split; [reflexivity|]. now exists path, obj0.
Qed.

Lemma bracket_name_kind (o o' : IrObject) :
  PyodideAnalyzer.bracket_name o = Ok o' ->
  kind o' = kind o /\ description o' = description o
  /\ is_Function o' = is_Function o.
Proof.
  unfold PyodideAnalyzer.bracket_name.
  destruct (py_and _ _) as [[|]|]; cbn [bind]; try discriminate;
    now intros [= <-].
Qed.

Lemma produce_kind (json : doclet) (o : IrObject) :
  produce json = Ok o -> kind o = final_kind json.
Proof.
  unfold produce.
  destruct (PyodideAnalyzer.get_object_from_json json) as [o0|] eqn:Hg;
    [|discriminate].
  cbn [bind]. intros Hb. apply bracket_name_kind in Hb as (-> & _).
  now apply get_object_from_json_kind in Hg as [-> _].
Qed.

Lemma of_kind_app (k : string) (l1 l2 : list IrObject) :
  of_kind k (l1 ++ l2) = of_kind k l1 ++ of_kind k l2.
Proof. apply List.filter_app. Qed.

Lemma append_obj_eq (key : string) (o : IrObject) (js : js_docs_t)
    (a f : list IrObject) :
  js !! key = Some [("attribute", a); ("function", f)] ->
  kind o = "attribute" \/ kind o = "function" ->
  PyodideAnalyzer.append_obj key o js
  = Ok (<[key := [("attribute", a ++ of_kind "attribute" [o]);
                  ("function", f ++ of_kind "function" [o])]]> js).
Proof.
  intros Hjs Hk. unfold PyodideAnalyzer.append_obj, getitem, of_kind.
  rewrite Hjs. cbn [bind List.filter].
  destruct Hk as [E|E]; rewrite E; cbn; now rewrite !app_nil_r.
Qed.

Lemma add_doclet_eq (key : string) (js : js_docs_t) (json : doclet)
    (a f : list IrObject) :
  js !! key = Some [("attribute", a); ("function", f)] ->
  PyodideAnalyzer.add_doclet key js json
  = if PyodideAnalyzer.is_private json then Ok js
    else let* o := produce json in
         Ok (<[key := [("attribute", a ++ of_kind "attribute" [o]);
                       ("function", f ++ of_kind "function" [o])]]> js).
Proof.
  intros Hjs. unfold PyodideAnalyzer.add_doclet.
  destruct (PyodideAnalyzer.is_private json); [reflexivity|].
  destruct (produce json) as [o|e] eqn:Hp.
  - pose proof (produce_kind _ _ Hp) as Hk. unfold produce in Hp.
    destruct (PyodideAnalyzer.get_object_from_json json); [|discriminate].
    cbn [bind] in *. rewrite Hp. cbn [bind].
    apply append_obj_eq; [exact Hjs|]. rewrite Hk. apply final_kind_cases.
  - unfold produce in Hp.
    destruct (PyodideAnalyzer.get_object_from_json json); cbn [bind] in *;
      [now rewrite Hp | congruence].
Qed.

Lemma add_doclets_eq (key : string) (group : list doclet) :
  forall (js : js_docs_t) (a f : list IrObject),
  js !! key = Some [("attribute", a); ("function", f)] ->
  for_each (PyodideAnalyzer.add_doclet key) group js
  = let* objs := comprehension produce (retained group) in
    Ok (<[key := [("attribute", a ++ of_kind "attribute" objs);
                  ("function", f ++ of_kind "function" objs)]]> js).
Proof.
  induction group as [|json group IH]; intros js a f Hjs.
  - cbn. rewrite !app_nil_r. now rewrite insert_id.
  - cbn [for_each retained List.filter]. rewrite (add_doclet_eq _ _ _ _ _ Hjs).
    fold (retained group).
    destruct (PyodideAnalyzer.is_private json); cbn [negb bind].
    + now apply IH.
    + cbn [comprehension]. destruct (produce json) as [o|e]; [|reflexivity].
      cbn [bind]. erewrite IH by apply lookup_insert_eq.
      destruct (comprehension produce (retained group)) as [objs|]; [|reflexivity].
      cbn [bind]. rewrite insert_insert_eq.
      change (o :: objs) with ([o] ++ objs). now rewrite !of_kind_app, !app_assoc.
Qed.

End SecondLoop.

Lemma key_get {V} (k : string) (d : PyDict.t V) :
  k ∈ PyDict.keys d -> exists v, PyDict.get k d = Ok v.
Proof.
  unfold PyDict.keys. induction d as [|[k' v'] d IH]; cbn; intros Hk.
  - now apply elem_of_nil in Hk.
  - destruct (String.eqb_spec k' k) as [->|ne]; [now exists v'|].
    apply IH. apply elem_of_cons in Hk as [->|Hk]; [contradiction | exact Hk].
Qed.

Lemma get_elem {V} (k : string) (v : V) (d : PyDict.t V) :
  PyDict.get k d = Ok v -> (k, v) ∈ d.
Proof.
  induction d as [|[k' v'] d IH]; cbn; [discriminate|].
  destruct (String.eqb_spec k' k) as [->|ne].
  - intros [= ->]. apply elem_of_cons. now left.
  - intros Hg. apply elem_of_cons. right. now apply IH.
Qed.

Lemma elem_get {V} (k : string) (v : V) (d : PyDict.t V) :
  NoDup (PyDict.keys d) -> (k, v) ∈ d -> PyDict.get k d = Ok v.
Proof.
  unfold PyDict.keys. induction d as [|[k' v'] d IH]; cbn; intros Hn Hin.
  - now apply elem_of_nil in Hin.
  - apply NoDup_cons in Hn as [Hk' Hn].
    apply elem_of_cons in Hin as [[= -> ->]|Hin].
    + now rewrite String.eqb_refl.
    + destruct (String.eqb_spec k' k) as [->|ne]; [|now apply IH].
      exfalso. apply Hk'. apply list_elem_of_fmap. now exists (k, v).
Qed.

Lemma initial_lookup (b : string) :
  PyodideAnalyzer.initial_js_docs !! b
  = if decide (b ∈ bucket_names) then Some PyodideAnalyzer.get_val else None.
Proof.
  unfold PyodideAnalyzer.initial_js_docs, bucket_names.
  destruct (decide (b = "PyProxy")) as [->|n1]; [reflexivity|].
  rewrite lookup_insert_ne by congruence.
  destruct (decide (b = "pyodide")) as [->|n2]; [reflexivity|].
  rewrite lookup_insert_ne by congruence.
  destruct (decide (b = "globals")) as [->|n3]; [reflexivity|].
  rewrite lookup_insert_ne by congruence. rewrite lookup_empty.
  rewrite decide_False; [reflexivity|]. set_solver.
Qed.

Section Buckets.
Context `{SphinxJs}.

Lemma add_all_inv (items : PyDict.t (list doclet)) :
  forall js0 js : js_docs_t,
  NoDup (PyDict.keys items) ->
  (forall k, k ∈ PyDict.keys items -> shaped js0 k) ->
  for_each PyodideAnalyzer.add_items items js0 = Ok js ->
  forall b,
    (b ∉ PyDict.keys items -> js !! b = js0 !! b)
    /\ (forall g, PyDict.get b items = Ok g ->
        exists a f objs,
          js0 !! b = Some [("attribute", a); ("function", f)]
          /\ comprehension produce (retained g) = Ok objs
          /\ js !! b = Some [("attribute", a ++ of_kind "attribute" objs);
                             ("function", f ++ of_kind "function" objs)]).
Proof.
  induction items as [|[k g] rest IH]; intros js0 js Hn Hs Hrun b.
  - cbn in Hrun. injection Hrun as <-. split; [reflexivity | discriminate].
  - cbn [PyDict.keys map fst] in Hn, Hs. apply NoDup_cons in Hn as [Hk Hn].
    destruct (Hs k) as (a & f & Hjs); [apply elem_of_cons; now left|].
    cbn [for_each] in Hrun. unfold PyodideAnalyzer.add_items at 1 in Hrun.
    cbn [fst snd] in Hrun. rewrite (add_doclets_eq _ _ _ _ _ Hjs) in Hrun.
    destruct (comprehension produce (retained g)) as [objs|] eqn:Hc;
      [|discriminate].
    cbn [bind] in Hrun.
    assert (Hs' : forall k', k' ∈ PyDict.keys rest ->
              shaped (<[k := [("attribute", a ++ of_kind "attribute" objs);
                              ("function", f ++ of_kind "function" objs)]]> js0) k').
    { intros k' Hk'. destruct (Hs k') as (a' & f' & Hjs');
        [apply elem_of_cons; now right|].
      exists a', f'. rewrite lookup_insert_ne; [exact Hjs'|]. set_solver. }
    destruct (IH _ _ Hn Hs' Hrun b) as [Hout Hin].
    destruct (IH _ _ Hn Hs' Hrun k) as [Houtk _].
    split.
    + intros Hb. cbn [PyDict.keys map fst] in Hb.
      rewrite Hout by set_solver. apply lookup_insert_ne. set_solver.
    + intros g'. cbn [PyDict.get].
      destruct (String.eqb_spec k b) as [->|ne].
      * intros [= <-]. exists a, f, objs. repeat split; try assumption.
        rewrite Houtk by exact Hk. apply lookup_insert_eq.
      * intros Hg. destruct (Hin g' Hg) as (a' & f' & objs' & H0 & Hc' & Hj).
        exists a', f', objs'. repeat split; try assumption.
        rewrite lookup_insert_ne in H0 by exact ne. exact H0.
Qed.

Lemma add_all_succeeds (items : PyDict.t (list doclet)) :
  forall js0 : js_docs_t,
  NoDup (PyDict.keys items) ->
  (forall k, k ∈ PyDict.keys items -> shaped js0 k) ->
  Forall (fun it => succeeds (comprehension produce (retained (snd it)))) items ->
  succeeds (for_each PyodideAnalyzer.add_items items js0).
Proof.
  induction items as [|[k g] rest IH]; intros js0 Hn Hs Hall.
  - now exists js0.
  - cbn [PyDict.keys map fst] in Hn, Hs. apply NoDup_cons in Hn as [Hk Hn].
    apply Forall_cons in Hall as [[objs Hc] Hall]. cbn [snd] in Hc.
    destruct (Hs k) as (a & f & Hjs); [apply elem_of_cons; now left|].
    cbn [for_each]. unfold PyodideAnalyzer.add_items at 1. cbn [fst snd].
    rewrite (add_doclets_eq _ _ _ _ _ Hjs), Hc. cbn [bind].
    apply IH; [exact Hn | | exact Hall].
    intros k' Hk'. destruct (Hs k') as (a' & f' & Hjs');
      [apply elem_of_cons; now right|].
    exists a', f'. rewrite lookup_insert_ne; [exact Hjs'|]. set_solver.
Qed.

End Buckets.

(** ** The buckets of [create_js_doclets] *)

Lemma filter_sublist {A} (p : A -> bool) (l : list A) :
  List.filter p l `sublist_of` l.
Proof.
  induction l as [|x l IH]; cbn; [constructor|].
  destruct (p x); now constructor.
Qed.

Lemma group_sublist (g : list doclet) (input : doclets_by_class_t) :
  g ∈ map snd input -> g `sublist_of` all_doclets input.
Proof.
  unfold all_doclets. induction input as [|e input IH]; cbn; intros Hg.
  - now apply elem_of_nil in Hg.
  - apply elem_of_cons in Hg as [->|Hg].
    + apply sublist_inserts_r. reflexivity.
    + apply sublist_inserts_l. now apply IH.
Qed.

Lemma matching_concat_sublist p (input : doclets_by_class_t) :
  concat (groups_matching p input) `sublist_of` all_doclets input.
Proof.
  unfold all_doclets. induction input as [|e input IH]; [constructor|].
  rewrite groups_matching_cons. cbn [map concat]. destruct (p (fst e)).
  - cbn [concat]. apply sublist_app; [reflexivity | exact IH].
  - now apply sublist_inserts_l.
Qed.

Lemma matching_elem p (input : doclets_by_class_t) (g : list doclet) :
  g ∈ groups_matching p input -> g ∈ map snd input.
Proof.
  unfold groups_matching. induction input as [|e input IH]; cbn; [easy|].
  destruct (p (fst e)); cbn; rewrite !elem_of_cons; intuition.
Qed.

Lemma last_or_sublist p (input : doclets_by_class_t) (k : string) (g : list doclet) :
  last_or (groups_matching p input) (Raise (KeyError k)) = Ok g ->
  g `sublist_of` all_doclets input.
Proof.
  unfold last_or. destruct (last _) as [g'|] eqn:Hl; [|discriminate].
  intros [= ->]. apply group_sublist, (matching_elem p).
  now apply last_Some_elem_of.
Qed.

(** The group selected for a bucket keeps the order of the input. *)
Lemma items_of_sublist (input : doclets_by_class_t) (b : string) :
  items_of b (fold_left select_step input [("PyProxy", [])])
    `sublist_of` all_doclets input.
Proof.
  destruct (select_fold_lookups input [("PyProxy", [])] [] eq_refl)
    as (Hx & Hg & Ho).
  destruct (select_fold_keys input [("PyProxy", [])]) as [_ Hf].
  { split; [apply NoDup_singleton|]. repeat constructor. }
  unfold items_of.
  destruct (PyDict.get b _) as [g|] eqn:Hb; [|apply sublist_nil_l].
  rewrite Forall_forall in Hf. pose proof (Hf b (get_Ok_key _ _ _ Hb)) as Hin.
  unfold bucket_names in Hin. rewrite !elem_of_cons in Hin.
  destruct Hin as [->|[->|[->|Hin]]]; [| | |now apply elem_of_nil in Hin].
  - rewrite Hg in Hb. now apply last_or_sublist in Hb.
  - rewrite Ho in Hb. now apply last_or_sublist in Hb.
  - rewrite Hx in Hb. injection Hb as <-. apply matching_concat_sublist.
Qed.

Section Create.
Context `{SphinxJs}.

Lemma initial_shaped (k : string) :
  k ∈ bucket_names -> shaped PyodideAnalyzer.initial_js_docs k.
Proof.
  intros Hk. exists [], []. rewrite initial_lookup. now rewrite decide_True.
Qed.

Lemma selected_keys (input : doclets_by_class_t) :
  let items := fold_left select_step input [("PyProxy", [])] in
  NoDup (PyDict.keys items) /\ (forall k, k ∈ PyDict.keys items -> k ∈ bucket_names).
Proof.
  destruct (select_fold_keys input [("PyProxy", [])]) as [Hn Hf].
  { split; [apply NoDup_singleton|]. repeat constructor. }
  split; [exact Hn|]. now rewrite Forall_forall in Hf.
Qed.

(** What [js_docs] is when [create_js_doclets] returns. *)
Lemma create_inv (input : doclets_by_class_t) (js : js_docs_t) :
  PyodideAnalyzer.create_js_doclets input = Ok js ->
  let items := fold_left select_step input [("PyProxy", [])] in
  PyodideAnalyzer.select_items input = Ok items
  /\ forall b,
       (b ∈ bucket_names ->
        exists objs,
          comprehension produce (retained (items_of b items)) = Ok objs
          /\ js !! b = Some (bucket_of objs))
       /\ (b ∉ bucket_names -> js !! b = None).
Proof.
  unfold PyodideAnalyzer.create_js_doclets. rewrite select_items_eq.
  destruct (forallb _ input); [|discriminate]. cbn [bind]. intros Hrun.
  split; [reflexivity|]. intros b.
  destruct (selected_keys input) as [Hn Hsub].
  set (items := fold_left select_step input [("PyProxy", [])]) in *.
  destruct (add_all_inv items _ _ Hn (fun k Hk => initial_shaped k (Hsub k Hk)) Hrun b)
    as [Hout Hin].
  split.
  - intros Hb. unfold items_of.
    destruct (decide (b ∈ PyDict.keys items)) as [Hk|Hk].
    + destruct (key_get _ _ Hk) as [g Hg]. rewrite Hg.
      destruct (Hin g Hg) as (a & f & objs & H0 & Hc & Hj).
      rewrite initial_lookup, decide_True in H0 by exact Hb.
      injection H0 as <- <-. now exists objs.
    + rewrite (get_not_key _ _ Hk). exists []. split; [reflexivity|].
      rewrite (Hout Hk), initial_lookup. now rewrite decide_True.
  - intros Hb. rewrite Hout by (intros Hk; apply Hb, Hsub, Hk).
    rewrite initial_lookup. now rewrite decide_False.
Qed.

(** When it returns. *)
Lemma create_succeeds (input : doclets_by_class_t) :
  forallb (fun e => key_ok (fst e)) input = true ->
  (forall b, b ∈ bucket_names ->
     succeeds (comprehension produce
                 (retained (items_of b (fold_left select_step input [("PyProxy", [])]))))) ->
  succeeds (PyodideAnalyzer.create_js_doclets input).
Proof.
  intros Hok Hall. unfold PyodideAnalyzer.create_js_doclets.
  rewrite select_items_eq, Hok. cbn [bind].
  destruct (selected_keys input) as [Hn Hsub].
  apply add_all_succeeds; [exact Hn | |].
  - intros k Hk. now apply initial_shaped, Hsub.
  - apply Forall_forall. intros [k g] Hin. cbn [snd].
    pose proof (elem_get _ _ _ Hn Hin) as Hg.
    specialize (Hall k (Hsub k (get_Ok_key _ _ _ Hg))).
    unfold items_of in Hall. now rewrite Hg in Hall.
Qed.

End Create.

(** ** Private doclets *)

Lemma retained_app (g1 g2 : list doclet) :
  retained (g1 ++ g2) = retained g1 ++ retained g2.
Proof. apply List.filter_app. Qed.

Lemma retained_idem (g : list doclet) : retained (retained g) = retained g.
Proof.
  unfold retained. induction g as [|d g IH]; [reflexivity|]. cbn [List.filter].
  destruct (negb (PyodideAnalyzer.is_private d)) eqn:E; [|exact IH].
  cbn [List.filter]. now rewrite E, IH.
Qed.

Lemma elem_retained (d : doclet) (g : list doclet) :
  d ∈ retained g <-> d ∈ g /\ PyodideAnalyzer.is_private d = false.
Proof.
  unfold retained. rewrite !list_elem_of_In, List.filter_In, negb_true_iff.
  reflexivity.
Qed.

Lemma drop_private_set (k : string) (g : list doclet)
    (d : PyDict.t (list doclet)) :
  PyDict.set k (retained g) (drop_private d) = drop_private (PyDict.set k g d).
Proof.
  induction d as [|[k' g'] d IH]; [reflexivity|]. cbn.
  destruct (String.eqb k' k); cbn; [reflexivity|]. f_equal. exact IH.
Qed.

Lemma drop_private_items_of (b : string) (d : PyDict.t (list doclet)) :
  items_of b (drop_private d) = retained (items_of b d).
Proof.
  unfold items_of. induction d as [|[k' g'] d IH]; [reflexivity|]. cbn.
  destruct (String.eqb k' b); [reflexivity | exact IH].
Qed.

Lemma drop_private_step (items : PyDict.t (list doclet))
    (e : list string * list doclet) :
  select_step (drop_private items) (fst e, retained (snd e))
  = drop_private (select_step items e).
Proof.
  unfold select_step. cbn [fst snd].
  destruct (matches_globals (fst e)), (matches_pyodide (fst e)),
    (matches_pyproxy (fst e));
    rewrite ?drop_private_set, ?drop_private_items_of,
      <- ?retained_app, ?drop_private_set; reflexivity.
Qed.

Lemma drop_private_fold (input : doclets_by_class_t) :
  forall items,
  fold_left select_step (drop_private input) (drop_private items)
  = drop_private (fold_left select_step input items).
Proof.
  induction input as [|e input IH]; intros items; [reflexivity|].
  cbn [drop_private map fold_left]. rewrite drop_private_step. apply IH.
Qed.

Lemma drop_private_keys (input : doclets_by_class_t) :
  forallb (fun e => key_ok (fst e)) (drop_private input)
  = forallb (fun e => key_ok (fst e)) input.
Proof.
  induction input as [|e input IH]; [reflexivity|].
  cbn [drop_private map forallb fst]. f_equal. exact IH.
Qed.

Section Private.
Context `{SphinxJs}.

Lemma add_retained (key : string) (g : list doclet) :
  forall js : js_docs_t,
  for_each (PyodideAnalyzer.add_doclet key) (retained g) js
  = for_each (PyodideAnalyzer.add_doclet key) g js.
Proof.
  induction g as [|d g IH]; intros js; [reflexivity|].
  cbn [retained List.filter for_each]. fold (retained g).
  unfold PyodideAnalyzer.add_doclet at 2.
  destruct (PyodideAnalyzer.is_private d) eqn:E; cbn [negb bind].
  - apply IH.
  - cbn [for_each]. unfold PyodideAnalyzer.add_doclet at 1. rewrite E.
    destruct (PyodideAnalyzer.get_object_from_json d) as [o|]; [|reflexivity].
    cbn [bind]. destruct (PyodideAnalyzer.bracket_name o) as [o'|]; [|reflexivity].
    cbn [bind]. destruct (PyodideAnalyzer.append_obj key o' js); [|reflexivity].
    cbn [bind]. apply IH.
Qed.

Lemma add_items_retained (items : PyDict.t (list doclet)) :
  forall js : js_docs_t,
  for_each PyodideAnalyzer.add_items (drop_private items) js
  = for_each PyodideAnalyzer.add_items items js.
Proof.
  induction items as [|[k g] items IH]; intros js; [reflexivity|].
  cbn [drop_private map for_each fst snd].
  unfold PyodideAnalyzer.add_items at 1 3. cbn [fst snd].
  rewrite add_retained.
  destruct (for_each (PyodideAnalyzer.add_doclet k) g js); [|reflexivity].
  cbn [bind]. apply IH.
Qed.

(** Removing the private doclets from the input changes nothing. *)
Lemma create_drop_private (input : doclets_by_class_t) :
  PyodideAnalyzer.create_js_doclets (drop_private input)
  = PyodideAnalyzer.create_js_doclets input.
Proof.
  unfold PyodideAnalyzer.create_js_doclets.
  rewrite !select_items_eq, drop_private_keys.
  destruct (forallb _ input); [|reflexivity]. cbn [bind].
  change [("PyProxy", @nil doclet)] with (drop_private [("PyProxy", @nil doclet)]) at 1.
  rewrite drop_private_fold. apply add_items_retained.
Qed.

End Private.

(** ** Where the objects of a bucket come from *)

Lemma comprehension_Forall2 {A B} (f : A -> result B) (l : list A) :
  forall ys, comprehension f l = Ok ys -> Forall2 (fun x y => f x = Ok y) l ys.
Proof.
  induction l as [|x l IH]; cbn; intros ys Hc.
  - injection Hc as <-. constructor.
  - destruct (f x) as [y|] eqn:Hx; [|discriminate]. cbn [bind] in Hc.
    destruct (comprehension f l) as [ys'|]; [|discriminate]. cbn [bind] in Hc.
    injection Hc as <-. constructor; [exact Hx | now apply IH].
Qed.

Lemma Forall2_elem_r {A B} (P : A -> B -> Prop) (l : list A) (k : list B) (y : B) :
  Forall2 P l k -> y ∈ k -> exists x, x ∈ l /\ P x y.
Proof.
  induction 1 as [|x y' l k Hxy _ IH]; intros Hy.
  - now apply elem_of_nil in Hy.
  - apply elem_of_cons in Hy as [->|Hy].
    + exists x. split; [apply elem_of_cons; now left | exact Hxy].
    + destruct (IH Hy) as (x' & Hx' & HP). exists x'.
      split; [apply elem_of_cons; now right | exact HP].
Qed.

Lemma elem_of_kind (k : string) (o : IrObject) (objs : list IrObject) :
  o ∈ of_kind k objs <-> o ∈ objs /\ kind o = k.
Proof.
  unfold of_kind. rewrite !list_elem_of_In, List.filter_In, String.eqb_eq.
  reflexivity.
Qed.

Section Provenance.
Context `{SphinxJs}.

Lemma bucket_elem (input : doclets_by_class_t) (js : js_docs_t)
    (b sub : string) (bk : bucket) (objs : list IrObject) (o : IrObject) :
  PyodideAnalyzer.create_js_doclets input = Ok js ->
  js !! b = Some bk -> (sub, objs) ∈ bk -> o ∈ objs ->
  b ∈ bucket_names
  /\ (sub = "attribute" \/ sub = "function") /\ kind o = sub
  /\ exists json,
       json ∈ all_doclets input
       /\ PyodideAnalyzer.is_private json = false
       /\ produce json = Ok o.
Proof.
  intros Hrun Hb Hsub Ho. destruct (create_inv _ _ Hrun) as [_ Hinv].
  destruct (Hinv b) as [Hin Hout].
  destruct (decide (b ∈ bucket_names)) as [Hbn|Hbn];
    [|rewrite (Hout Hbn) in Hb; discriminate].
  destruct (Hin Hbn) as (objs0 & Hc & Hjs). rewrite Hjs in Hb.
  injection Hb as <-. split; [exact Hbn|].
  assert (Hsrc : forall k, o ∈ of_kind k objs0 ->
            kind o = k /\ exists json, json ∈ all_doclets input
              /\ PyodideAnalyzer.is_private json = false /\ produce json = Ok o).
  { intros k Hk. apply elem_of_kind in Hk as [Hk ->]. split; [reflexivity|].
    destruct (Forall2_elem_r _ _ _ _ (comprehension_Forall2 _ _ _ Hc) Hk)
      as (json & Hj & Hp).
    apply elem_retained in Hj as [Hj Hpriv]. exists json. repeat split; try assumption.
    eapply sublist_subseteq; [apply items_of_sublist | exact Hj]. }
  unfold bucket_of in Hsub. rewrite !elem_of_cons in Hsub.
  destruct Hsub as [[= -> ->]|[[= -> ->]|Hsub]]; [| |now apply elem_of_nil in Hsub].
  - destruct (Hsrc _ Ho) as [Hk Hj]. split; [now left | now split].
  - destruct (Hsrc _ Ho) as [Hk Hj]. split; [now right | now split].
Qed.

End Provenance.

Example demo_create_ok :
  @PyodideAnalyzer.create_js_doclets demo_inner demo_input = Ok demo_js_docs.
Proof. vm_compute. reflexivity. Qed.

(** C2: when the categorizer returns, it returns the same buckets for the
    input without its private doclets, and every object of every sub-bucket
    of every bucket is the object produced for a doclet of the input that is
    not private. *)
Theorem C2_private_doclets_dropped `{SphinxJs}
    (input : doclets_by_class_t) (js : js_docs_t) :
  PyodideAnalyzer.create_js_doclets input = Ok js ->
  PyodideAnalyzer.create_js_doclets (drop_private input) = Ok js
  /\ forall (b sub : string) (bk : bucket) (objs : list IrObject) (o : IrObject),
       js !! b = Some bk -> (sub, objs) ∈ bk -> o ∈ objs ->
       exists json,
         json ∈ all_doclets input
         /\ json !! "access" <> Some "private"
         /\ produce json = Ok o.
Proof.
  intros Hrun. split; [now rewrite create_drop_private|].
  intros b sub bk objs o Hb Hsub Ho.
  destruct (bucket_elem _ _ _ _ _ _ _ Hrun Hb Hsub Ho)
    as (_ & _ & _ & json & Hj & Hpriv & Hp).
  exists json. repeat split; try assumption.
  unfold PyodideAnalyzer.is_private in Hpriv. intros Ha. rewrite Ha in Hpriv.
  discriminate.
Qed.

Lemma C2_private_doclets_dropped_witness :
  @PyodideAnalyzer.create_js_doclets demo_inner demo_input = Ok demo_js_docs
  /\ @PyodideAnalyzer.create_js_doclets demo_inner (drop_private demo_input)
     = Ok demo_js_docs.
Proof.
  split; [vm_compute; reflexivity|].
  apply (@C2_private_doclets_dropped demo_inner demo_input demo_js_docs).
  vm_compute; reflexivity.
Defined.

(** ** The kind tag *)

Section Kinds.
Context `{SphinxJs}.

Lemma produce_kind_tag (json : doclet) (o : IrObject) :
  produce json = Ok o ->
  exists k, json !! "kind" = Some k
    /\ kind o = if decide (k = "function") then "function" else "attribute".
Proof.
  intros Hp. pose proof (produce_kind _ _ Hp) as Hk. unfold produce in Hp.
  unfold PyodideAnalyzer.get_object_from_json, getitem in Hp.
  destruct (json !! "longname"); [|discriminate]. cbn [bind] in Hp.
  destruct (PyodideAnalyzer.longname_to_path _); [|discriminate]. cbn [bind] in Hp.
  unfold final_kind in Hk.
  destruct (json !! "kind") as [k|]; [|discriminate]. exists k.
  split; [reflexivity|]. rewrite Hk.
  destruct (String.eqb_spec k "function") as [->|ne].
  - now rewrite decide_True.
  - now rewrite decide_False.
Qed.

End Kinds.

(** C3: when the categorizer returns, each bucket is made of the objects
    [objs] produced, one each and in order, for the doclets it retained for
    that bucket; the kind tag of each object is "function" when the doclet's
    own kind is "function" and "attribute" otherwise; and the two sub-buckets
    "attribute" and "function" hold exactly the objects of [objs] with that
    tag, so each object is in the one sub-bucket its tag names. *)
Theorem C3_kind_tag_names_sub_bucket `{SphinxJs}
    (input : doclets_by_class_t) (js : js_docs_t) (b : string) :
  PyodideAnalyzer.create_js_doclets input = Ok js ->
  b ∈ bucket_names ->
  exists items objs,
    PyodideAnalyzer.select_items input = Ok items
    /\ Forall2 (fun json o =>
         produce json = Ok o
         /\ exists k, json !! "kind" = Some k
              /\ kind o = if decide (k = "function")
                          then "function" else "attribute")
         (retained (items_of b items)) objs
    /\ Forall (fun o => kind o = "attribute" \/ kind o = "function") objs
    /\ js !! b
       = Some [("attribute",
                List.filter (fun o => String.eqb (kind o) "attribute") objs);
               ("function",
                List.filter (fun o => String.eqb (kind o) "function") objs)].
Proof.
  intros Hrun Hb. destruct (create_inv _ _ Hrun) as [Hsel Hinv].
  destruct (Hinv b) as [Hin _]. destruct (Hin Hb) as (objs & Hc & Hjs).
  eexists _, objs. split; [exact Hsel|].
  apply comprehension_Forall2 in Hc.
  repeat split; [| |exact Hjs].
  - eapply Forall2_impl; [exact Hc|]. intros json o Hp.
    split; [exact Hp | now apply produce_kind_tag].
  - apply Forall_forall. intros o Ho.
    destruct (Forall2_elem_r _ _ _ _ Hc Ho) as (json & _ & Hp).
    rewrite (produce_kind _ _ Hp). apply final_kind_cases.
Qed.

Lemma C3_kind_tag_names_sub_bucket_witness :
  @PyodideAnalyzer.create_js_doclets demo_inner demo_input = Ok demo_js_docs
  /\ "pyodide" ∈ bucket_names
  /\ exists items objs,
    PyodideAnalyzer.select_items demo_input = Ok items
    /\ Forall2 (fun json o =>
         @produce demo_inner json = Ok o
         /\ exists k, json !! "kind" = Some k
              /\ kind o = if decide (k = "function")
                          then "function" else "attribute")
         (retained (items_of "pyodide" items)) objs
    /\ Forall (fun o => kind o = "attribute" \/ kind o = "function") objs
    /\ demo_js_docs !! "pyodide"
       = Some [("attribute",
                List.filter (fun o => String.eqb (kind o) "attribute") objs);
               ("function",
                List.filter (fun o => String.eqb (kind o) "function") objs)].
Proof.
  split; [vm_compute; reflexivity|]. split; [unfold bucket_names; set_solver|].
  apply (@C3_kind_tag_names_sub_bucket demo_inner demo_input demo_js_docs "pyodide").
  - vm_compute; reflexivity.
  - unfold bucket_names; set_solver.
Defined.

(** ** Quoted names *)

Lemma first_Ok (s : string) (c : ascii) :
  PyStr.first s = Ok c <-> exists t, s = String c t.
Proof.
  destruct s as [|a s]; cbn; split.
  - discriminate.
  - intros [t Ht]. discriminate.
  - intros [= ->]. now exists s.
  - intros [t [= -> _]]. reflexivity.
Qed.

Lemma append_nil_l (s : string) : "" +:+ s = s.
Proof. reflexivity. Qed.

Lemma append_cons_l (a : ascii) (u s : string) :
  String a u +:+ s = String a (u +:+ s).
Proof. reflexivity. Qed.

Lemma last_Ok (s : string) (c : ascii) :
  PyStr.last s = Ok c <-> exists u, s = u +:+ String c "".
Proof.
  induction s as [|a s IH]; cbn [PyStr.last].
  - split; [discriminate|]. intros [[|b u] Hu]; discriminate.
  - destruct s as [|b s].
    + split.
      * intros [= ->]. now exists "".
      * intros [[|b u] Hu].
        -- rewrite append_nil_l in Hu. congruence.
        -- rewrite append_cons_l in Hu. injection Hu as _ Hu.
           destruct u; discriminate.
    + rewrite IH. split.
      * intros [u Hu]. exists (String a u). rewrite append_cons_l. now rewrite Hu.
      * intros [[|a' u] Hu].
        -- rewrite append_nil_l in Hu. discriminate.
        -- rewrite append_cons_l in Hu. injection Hu as _ Hu. now exists u.
Qed.

Lemma first_Raise (s : string) (e : exn) : PyStr.first s = Raise e -> s = "".
Proof. destruct s; [reflexivity | discriminate]. Qed.

Lemma length_append (u v : string) :
  String.length (u +:+ v) = String.length u + String.length v.
Proof.
  induction u as [|a u IH]; [reflexivity|].
  rewrite append_cons_l. cbn [String.length]. now rewrite IH.
Qed.

Lemma substring_prefix (u v : string) :
  String.substring 0 (String.length u) (u +:+ v) = u.
Proof.
  induction u as [|a u IH].
  - rewrite append_nil_l. now destruct v.
  - rewrite append_cons_l. cbn [String.length String.substring]. now rewrite IH.
Qed.

Lemma strip_ends_quoted (inner : string) : PyStr.strip_ends (quoted inner) = inner.
Proof.
  unfold PyStr.strip_ends, quoted. cbn [String.length].
  rewrite length_append. cbn [String.length].
  replace (S (String.length inner + 1) - 2) with (String.length inner) by lia.
  cbn [String.substring]. apply substring_prefix.
Qed.

Lemma is_quoted_quoted (inner : string) : is_quoted (quoted inner).
Proof.
  split; [now exists (inner +:+ String dquote "")|].
  exists (String dquote inner). reflexivity.
Qed.

Lemma ascii_eqb_dquote (c : ascii) : Ascii.eqb c dquote = true <-> c = dquote.
Proof. apply Ascii.eqb_eq. Qed.

(** What the renaming does when it returns; it raises on an empty name. *)
Lemma bracket_name_spec (obj0 o : IrObject) :
  PyodideAnalyzer.bracket_name obj0 = Ok o ->
  (is_quoted (name obj0)
   /\ o = set_name obj0 ("[" +:+ PyStr.strip_ends (name obj0) +:+ "]"))
  \/ (~ is_quoted (name obj0) /\ o = obj0).
Proof.
  unfold PyodideAnalyzer.bracket_name, py_and.
  destruct (PyStr.first (name obj0)) as [c|] eqn:Hf; [|discriminate].
  cbn [bind]. destruct (Ascii.eqb c dquote) eqn:Hc.
  - apply ascii_eqb_dquote in Hc as ->.
    destruct (PyStr.last (name obj0)) as [c'|] eqn:Hl; [|discriminate].
    cbn [bind]. destruct (Ascii.eqb c' dquote) eqn:Hc'.
    + apply ascii_eqb_dquote in Hc' as ->. intros [= <-]. left.
      split; [|reflexivity]. split; [now apply first_Ok | now apply last_Ok].
    + intros [= <-]. right. split; [|reflexivity]. intros [_ Hq].
      apply last_Ok in Hq. rewrite Hq in Hl. injection Hl as <-.
      now rewrite Ascii.eqb_refl in Hc'.
  - cbn [bind]. intros [= <-]. right. split; [|reflexivity]. intros [Hq _].
    apply first_Ok in Hq. rewrite Hq in Hf. injection Hf as <-.
    now rewrite Ascii.eqb_refl in Hc.
Qed.

Example bracket_name_foo :
  PyodideAnalyzer.bracket_name (mkIr (quoted "foo") "attribute" "" false)
  = Ok (mkIr "[foo]" "attribute" "" false).
Proof. reflexivity. Qed.

Example bracket_name_lone_quote :
  PyodideAnalyzer.bracket_name (mkIr (String dquote "") "attribute" "" false)
  = Ok (mkIr "[]" "attribute" "" false).
Proof. reflexivity. Qed.

Example bracket_name_empty :
  PyodideAnalyzer.bracket_name (mkIr "" "attribute" "" false) = Raise IndexError.
Proof. reflexivity. Qed.

(** C6: when the categorizer returns, every object [o] of every sub-bucket
    was looked up, as [obj0], for a doclet of the input; if the name of
    [obj0] starts and ends with a double quote, the name of [o] is [[],
    the name without its first and last character, and []] (so the literal
    of [inner] between quotes gives [inner] between brackets); otherwise
    [o] is [obj0] with only its kind tag set, its name unchanged. *)
Theorem C6_quoted_name_in_brackets `{SphinxJs}
    (input : doclets_by_class_t) (js : js_docs_t)
    (b sub : string) (bk : bucket) (objs : list IrObject) (o : IrObject) :
  PyodideAnalyzer.create_js_doclets input = Ok js ->
  js !! b = Some bk -> (sub, objs) ∈ bk -> o ∈ objs ->
  exists json obj0,
    json ∈ all_doclets input
    /\ PyodideAnalyzer.get_object_from_json json = Ok obj0
    /\ (is_quoted (name obj0) ->
        name o = "[" +:+ PyStr.strip_ends (name obj0) +:+ "]")
    /\ (forall inner, name obj0 = quoted inner ->
        name o = "[" +:+ inner +:+ "]")
    /\ (~ is_quoted (name obj0) -> o = obj0).
Proof.
  intros Hrun Hb Hsub Ho.
  destruct (bucket_elem _ _ _ _ _ _ _ Hrun Hb Hsub Ho)
    as (_ & _ & _ & json & Hj & _ & Hp).
  unfold produce in Hp.
  destruct (PyodideAnalyzer.get_object_from_json json) as [obj0|] eqn:Hg;
    [|discriminate].
  cbn [bind] in Hp. exists json, obj0. split; [exact Hj|]. split; [exact Hg|].
  destruct (bracket_name_spec _ _ Hp) as [[Hq ->]|[Hq ->]].
  - repeat split.
    + intros inner Hn. cbn [name set_name]. now rewrite Hn, strip_ends_quoted.
    + intros Hn. contradiction.
  - repeat split.
    + intros Hn. contradiction.
    + intros inner Hn. exfalso. apply Hq. rewrite Hn. apply is_quoted_quoted.
Qed.

Lemma C6_quoted_name_in_brackets_witness :
  let o := mkIr "[bar]" "attribute" ("About " +:+ quoted "bar" +:+ ".") false in
  @PyodideAnalyzer.create_js_doclets demo_inner demo_input = Ok demo_js_docs
  /\ demo_js_docs !! "pyodide" = Some (bucket_of [o; mkIr "runPython" "function" "About runPython." true])
  /\ exists json obj0,
       json ∈ all_doclets demo_input
       /\ @PyodideAnalyzer.get_object_from_json demo_inner json = Ok obj0
       /\ (is_quoted (name obj0) ->
           name o = "[" +:+ PyStr.strip_ends (name obj0) +:+ "]")
       /\ (forall inner, name obj0 = quoted inner ->
           name o = "[" +:+ inner +:+ "]")
       /\ (~ is_quoted (name obj0) -> o = obj0).
Proof.
  intros o. split; [vm_compute; reflexivity|]. split; [vm_compute; reflexivity|].
  apply (@C6_quoted_name_in_brackets demo_inner demo_input demo_js_docs
           "pyodide" "attribute"
           (bucket_of [o; mkIr "runPython" "function" "About runPython." true])
           [o] o).
  - vm_compute; reflexivity.
  - vm_compute; reflexivity.
  - apply elem_of_cons. left. reflexivity.
  - apply elem_of_cons. left. reflexivity.
Defined.

(** ** Order *)

Section Order.
Context `{SphinxJs}.

Lemma Forall2_of_kind (k : string) (ds : list doclet) (objs : list IrObject) :
  Forall2 (fun d o => produce d = Ok o) ds objs ->
  Forall2 (fun d o => produce d = Ok o)
    (List.filter (fun d => String.eqb (final_kind d) k) ds) (of_kind k objs).
Proof.
  induction 1 as [|d o ds objs Hp _ IH]; [constructor|].
  unfold of_kind. cbn [List.filter]. rewrite (produce_kind _ _ Hp).
  destruct (String.eqb (final_kind d) k); [constructor; assumption | exact IH].
Qed.

(** The sources of a sub-bucket, in the order of the input. *)
Lemma sub_bucket_sources (input : doclets_by_class_t) (js : js_docs_t)
    (b : string) :
  PyodideAnalyzer.create_js_doclets input = Ok js ->
  b ∈ bucket_names ->
  exists objs,
    js !! b = Some (bucket_of objs)
    /\ forall k,
         let src := List.filter (fun d => String.eqb (final_kind d) k)
                      (retained (items_of b
                         (fold_left select_step input [("PyProxy", [])]))) in
         src `sublist_of` all_doclets input
         /\ Forall2 (fun d o => produce d = Ok o) src (of_kind k objs).
Proof.
  intros Hrun Hb. destruct (create_inv _ _ Hrun) as [_ Hinv].
  destruct (Hinv b) as [Hin _]. destruct (Hin Hb) as (objs & Hc & Hjs).
  exists objs. split; [exact Hjs|]. intros k src. split.
  - subst src. etransitivity; [apply filter_sublist|].
    etransitivity; [apply filter_sublist | apply items_of_sublist].
  - apply Forall2_of_kind. now apply comprehension_Forall2.
Qed.

End Order.

Example content_rst_demo :
  @JsDocContent.run_rst demo_inner demo_js_docs ["PyProxy"]
  = Ok [[".. js:module:: PyProxy"];
        [".. js:attribute:: type"];
        [".. js:function:: getBuffer"]].
Proof. vm_compute. reflexivity. Qed.

(** C7: when the categorizer returns, each sub-bucket of a bucket holds
    the objects produced for a sub-list of the doclets of the input, in the
    order of the input; and the full-content directive builds, after the
    module line, one block per object of the "attribute" sub-bucket in its
    order and then one block per object of the "function" sub-bucket in its
    order, which it joins and hands to the parser. *)
Theorem C7_order_kept_and_rendered `{SphinxJs} `{Sphinx}
    (input : doclets_by_class_t) (js : js_docs_t) (b : string) :
  PyodideAnalyzer.create_js_doclets input = Ok js ->
  b ∈ bucket_names ->
  exists attrs funcs src_a src_f,
    js !! b = Some [("attribute", attrs); ("function", funcs)]
    /\ src_a `sublist_of` all_doclets input
    /\ Forall2 (fun d o => produce d = Ok o) src_a attrs
    /\ src_f `sublist_of` all_doclets input
    /\ Forall2 (fun d o => produce d = Ok o) src_f funcs
    /\ JsDocContent.run_rst js [b]
       = Ok [[".. js:module:: " +:+ b];
             map JsDocContent.get_rst attrs;
             map JsDocContent.get_rst funcs]
    /\ JsDocContent.run js [b]
       = rst_parse
           (PyStr.join JsDocContent.blank_line
              (map (PyStr.join JsDocContent.blank_line)
                 [[".. js:module:: " +:+ b];
                  map JsDocContent.get_rst attrs;
                  map JsDocContent.get_rst funcs])).
Proof.
  intros Hrun Hb.
  destruct (sub_bucket_sources _ _ _ Hrun Hb) as (objs & Hjs & Hsrc).
  destruct (Hsrc "attribute") as [Hsa Hfa].
  destruct (Hsrc "function") as [Hsf Hff].
  eexists _, _, _, _. split; [exact Hjs|].
  split; [exact Hsa|]. split; [exact Hfa|].
  split; [exact Hsf|]. split; [exact Hff|].
  assert (Hr : JsDocContent.run_rst js [b]
               = Ok [[".. js:module:: " +:+ b];
                     map JsDocContent.get_rst (of_kind "attribute" objs);
                     map JsDocContent.get_rst (of_kind "function" objs)]).
  { unfold JsDocContent.run_rst, getitem. cbn [PyList.first bind].
    rewrite Hjs. reflexivity. }
  split; [exact Hr|]. unfold JsDocContent.run. rewrite Hr. reflexivity.
Qed.

Lemma C7_order_kept_and_rendered_witness :
  @PyodideAnalyzer.create_js_doclets demo_inner demo_input = Ok demo_js_docs
  /\ "PyProxy" ∈ bucket_names
  /\ exists attrs funcs src_a src_f,
    demo_js_docs !! "PyProxy" = Some [("attribute", attrs); ("function", funcs)]
    /\ src_a `sublist_of` all_doclets demo_input
    /\ Forall2 (fun d o => @produce demo_inner d = Ok o) src_a attrs
    /\ src_f `sublist_of` all_doclets demo_input
    /\ Forall2 (fun d o => @produce demo_inner d = Ok o) src_f funcs
    /\ @JsDocContent.run_rst demo_inner demo_js_docs ["PyProxy"]
       = Ok [[".. js:module:: " +:+ "PyProxy"];
             map (@JsDocContent.get_rst demo_inner) attrs;
             map (@JsDocContent.get_rst demo_inner) funcs]
    /\ @JsDocContent.run demo_inner demo_sphinx demo_js_docs ["PyProxy"]
       = @rst_parse demo_sphinx
           (PyStr.join JsDocContent.blank_line
              (map (PyStr.join JsDocContent.blank_line)
                 [[".. js:module:: " +:+ "PyProxy"];
                  map (@JsDocContent.get_rst demo_inner) attrs;
                  map (@JsDocContent.get_rst demo_inner) funcs])).
Proof.
  split; [vm_compute; reflexivity|]. split; [unfold bucket_names; set_solver|].
  apply (@C7_order_kept_and_rendered demo_inner demo_sphinx demo_input
           demo_js_docs "PyProxy").
  - vm_compute; reflexivity.
  - unfold bucket_names; set_solver.
Defined.

(** ** When the categorizer returns *)

Lemma comprehension_succeeds {A B} (f : A -> result B) (l : list A) :
  Forall (fun x => succeeds (f x)) l -> succeeds (comprehension f l).
Proof.
  induction 1 as [|x l [y Hy] _ [ys Hys]]; [now exists []|].
  exists (y :: ys). cbn [comprehension]. now rewrite Hy, Hys.
Qed.

Lemma create_raises_on_empty_key `{SphinxJs} (input : doclets_by_class_t) :
  forallb (fun e => key_ok (fst e)) input = false ->
  PyodideAnalyzer.create_js_doclets input = Raise IndexError.
Proof.
  intros Hk. unfold PyodideAnalyzer.create_js_doclets.
  now rewrite select_items_eq, Hk.
Qed.

(** C4, as amended: when every group key keeps a component once those with
    a slash are dropped, the selection of the groups returns, and the groups
    that pass no test leave no trace: the categorizer does on the input what
    it does on the input without them. It returns whenever, in addition, the
    lookup and the renaming return for every doclet of the input that is not
    private. *)
Theorem C4_categorizer_returns `{SphinxJs} (input : doclets_by_class_t) :
  forallb (fun e => key_ok (fst e)) input = true ->
  succeeds (PyodideAnalyzer.select_items input)
  /\ PyodideAnalyzer.create_js_doclets
       (List.filter (fun e => matches_any (fst e)) input)
     = PyodideAnalyzer.create_js_doclets input
  /\ ((forall json, json ∈ all_doclets input ->
         PyodideAnalyzer.is_private json = false -> succeeds (produce json)) ->
      succeeds (PyodideAnalyzer.create_js_doclets input)).
Proof.
  intros Hok. split; [|split].
  - rewrite select_items_eq, Hok. now eexists.
  - unfold PyodideAnalyzer.create_js_doclets.
    rewrite !select_items_eq, Hok, (forallb_filter _ _ _ Hok).
    now rewrite select_fold_matched.
  - intros Hall. apply create_succeeds; [exact Hok|]. intros b _.
    apply comprehension_succeeds, Forall_forall. intros json Hj.
    apply elem_retained in Hj as [Hj Hpriv]. apply Hall; [|exact Hpriv].
    eapply sublist_subseteq; [apply items_of_sublist | exact Hj].
Qed.

Lemma C4_categorizer_returns_witness :
  forallb (fun e => key_ok (fst e)) demo_input = true
  /\ succeeds (PyodideAnalyzer.select_items demo_input)
  /\ @PyodideAnalyzer.create_js_doclets demo_inner
       (List.filter (fun e => matches_any (fst e)) demo_input)
     = @PyodideAnalyzer.create_js_doclets demo_inner demo_input
  /\ succeeds (@PyodideAnalyzer.create_js_doclets demo_inner demo_input).
Proof.
  split; [vm_compute; reflexivity|].
  destruct (@C4_categorizer_returns demo_inner demo_input) as (Hs & Hu & Hr);
    [vm_compute; reflexivity|].
  split; [exact Hs|]. split; [exact Hu|].
  exists demo_js_docs. vm_compute; reflexivity.
Defined.

(** C4, as stated, fails: a key that is empty, or whose components all
    contain a slash, makes the categorizer raise [IndexError]. *)
Lemma C4_empty_key_raises :
  @PyodideAnalyzer.create_js_doclets demo_inner
    [([], [mk_doclet "foo" "function" None])] = Raise IndexError
  /\ @PyodideAnalyzer.create_js_doclets demo_inner
       [(["./"; "src/"], [mk_doclet "foo" "function" None])] = Raise IndexError.
Proof. split; vm_compute; reflexivity. Qed.

(** ** The summary directive *)

Section Summary.
Context `{SphinxJs} `{Sphinx}.

Lemma format_table_shape (options : gset string)
    (items : list (string * string * string * string)) :
  exists spec tbl,
    JsDocSummary.format_table options items = [spec; tbl]
    /\ node_tag spec = Some tabular_col_spec
    /\ node_tag tbl = Some autosummary_table
    /\ table_rows tbl
       = map (fun item =>
                JsDocSummary.append_row
                  [JsDocSummary.col1 options item; item.1.2]) items.
Proof. eexists _, _. repeat split. Qed.

Lemma run_group_emitted (options : gset string) (module group_name : string)
    (group_objects : list IrObject) :
  emitted (PyStr.title group_name +:+ "s:") (length group_objects)
    (JsDocSummary.run_group options module (group_name, group_objects)).
Proof.
  destruct group_objects as [|o objs]; [reflexivity|].
  cbn [JsDocSummary.run_group length emitted].
  destruct (format_table_shape options
              (JsDocSummary.get_summary_table module (o :: objs)))
    as (spec & tbl & -> & Hs & Ht & Hrows).
  exists spec, tbl. split; [reflexivity|]. split; [exact Hs|]. split; [exact Ht|].
  rewrite Hrows. split.
  - unfold JsDocSummary.get_summary_table. now rewrite !length_map.
  - apply Forall_forall. intros r Hr. apply list_elem_of_fmap in Hr as (item & -> & _).
    reflexivity.
Qed.

End Summary.

Example summary_demo_globals :
  exists spec tbl,
    @JsDocSummary.run demo_inner demo_sphinx ∅ demo_js_docs ["globals"]
    = Ok [JsDocSummary.format_heading "Functions:"; spec; tbl]
    /\ table_rows tbl
       = [Element row []
            [Element entry []
               [Element paragraph []
                  [Text (":any:" +:+ String backtick
                           ("foo <globals.foo>" +:+ String backtick
                              (String backslash " (x)")))]];
             Element entry [] [Element paragraph [] [Text "About foo."]]]].
Proof. eexists _, _. split; vm_compute; reflexivity. Qed.

Example summary_demo_pyodide_names :
  map (fun r => fst (fst (fst r)))
    (@JsDocSummary.get_summary_table demo_inner demo_sphinx "pyodide"
       [mkIr "[bar]" "attribute" "" false])
  = ["[bar]"].
Proof. reflexivity. Qed.

(** C8: when the categorizer returns, for each of the three bucket names
    the summary directive returns what it emits for the "attribute"
    sub-bucket followed by what it emits for the "function" sub-bucket; for
    an empty sub-bucket that is nothing, and otherwise it is the heading
    ([Attributes:], [Functions:]), the column specification and one table
    with as many rows as the sub-bucket has objects, which is the number of
    doclets of that kind retained for the bucket. *)
Theorem C8_summary_per_sub_bucket `{SphinxJs} `{Sphinx}
    (options : gset string) (input : doclets_by_class_t) (js : js_docs_t)
    (b : string) :
  PyodideAnalyzer.create_js_doclets input = Ok js ->
  b ∈ bucket_names ->
  exists items attrs funcs out_a out_f,
    PyodideAnalyzer.select_items input = Ok items
    /\ js !! b = Some [("attribute", attrs); ("function", funcs)]
    /\ JsDocSummary.run options js [b] = Ok (out_a ++ out_f)
    /\ emitted "Attributes:" (length attrs) out_a
    /\ emitted "Functions:" (length funcs) out_f
    /\ length attrs
       = length (List.filter (fun d => String.eqb (final_kind d) "attribute")
                   (retained (items_of b items)))
    /\ length funcs
       = length (List.filter (fun d => String.eqb (final_kind d) "function")
                   (retained (items_of b items))).
Proof.
  intros Hrun Hb. destruct (create_inv _ _ Hrun) as [Hsel _].
  destruct (sub_bucket_sources _ _ _ Hrun Hb) as (objs & Hjs & Hsrc).
  destruct (Hsrc "attribute") as [_ Hfa]. destruct (Hsrc "function") as [_ Hff].
  eexists _, (of_kind "attribute" objs), (of_kind "function" objs),
    (JsDocSummary.run_group options b ("attribute", of_kind "attribute" objs)),
    (JsDocSummary.run_group options b ("function", of_kind "function" objs)).
  split; [exact Hsel|]. split; [exact Hjs|]. split.
  { unfold JsDocSummary.run, getitem. cbn [PyList.first bind]. rewrite Hjs.
    unfold bucket_of. cbn [bind map concat]. now rewrite app_nil_r. }
  split; [exact (run_group_emitted options b "attribute" _)|].
  split; [exact (run_group_emitted options b "function" _)|].
  split; symmetry; eapply Forall2_length; eassumption.
Qed.

Lemma C8_summary_per_sub_bucket_witness :
  @PyodideAnalyzer.create_js_doclets demo_inner demo_input = Ok demo_js_docs
  /\ "globals" ∈ bucket_names
  /\ exists items attrs funcs out_a out_f,
    PyodideAnalyzer.select_items demo_input = Ok items
    /\ demo_js_docs !! "globals" = Some [("attribute", attrs); ("function", funcs)]
    /\ @JsDocSummary.run demo_inner demo_sphinx ∅ demo_js_docs ["globals"]
       = Ok (out_a ++ out_f)
    /\ emitted "Attributes:" (length attrs) out_a
    /\ emitted "Functions:" (length funcs) out_f
    /\ length attrs
       = length (List.filter (fun d => String.eqb (final_kind d) "attribute")
                   (retained (items_of "globals" items)))
    /\ length funcs
       = length (List.filter (fun d => String.eqb (final_kind d) "function")
                   (retained (items_of "globals" items))).
Proof.
  split; [vm_compute; reflexivity|]. split; [unfold bucket_names; set_solver|].
  apply (@C8_summary_per_sub_bucket demo_inner demo_sphinx ∅ demo_input
           demo_js_docs "globals").
  - vm_compute; reflexivity.
  - unfold bucket_names; set_solver.
Defined.

(** ** Unknown bucket names *)

(** C10: when the categorizer returns, [js_docs] has the three bucket
    names as its only keys, and either directive, given one argument that is
    none of them, raises [KeyError] for that argument at the lookup. *)
Theorem C10_unknown_bucket_raises_KeyError `{SphinxJs} `{Sphinx}
    (options : gset string) (input : doclets_by_class_t) (js : js_docs_t)
    (module : string) :
  PyodideAnalyzer.create_js_doclets input = Ok js ->
  module ∉ bucket_names ->
  js !! module = None
  /\ JsDocContent.run js [module] = Raise (KeyError module)
  /\ JsDocSummary.run options js [module] = Raise (KeyError module).
Proof.
  intros Hrun Hm. destruct (create_inv _ _ Hrun) as [_ Hinv].
  destruct (Hinv module) as [_ Hnone]. specialize (Hnone Hm).
  split; [exact Hnone|].
  unfold JsDocContent.run, JsDocContent.run_rst, JsDocSummary.run, getitem.
  cbn [PyList.first bind]. rewrite Hnone. now split.
Qed.

Lemma C10_unknown_bucket_raises_KeyError_witness :
  @PyodideAnalyzer.create_js_doclets demo_inner demo_input = Ok demo_js_docs
  /\ ("Globals" ∉ bucket_names)
  /\ demo_js_docs !! "Globals" = None
  /\ @JsDocContent.run demo_inner demo_sphinx demo_js_docs ["Globals"]
     = Raise (KeyError "Globals")
  /\ @JsDocSummary.run demo_inner demo_sphinx ∅ demo_js_docs ["Globals"]
     = Raise (KeyError "Globals").
Proof.
  split; [vm_compute; reflexivity|].
  split; [unfold bucket_names; set_solver|].
  apply (@C10_unknown_bucket_raises_KeyError demo_inner demo_sphinx ∅
           demo_input demo_js_docs "Globals").
  - vm_compute; reflexivity.
  - unfold bucket_names; set_solver.
Defined.

(** ** Further properties of the categorizer *)

(** X1: the categorizer returns exactly when every key keeps a component
    once those with a slash are dropped and, for each bucket, the lookup and
    the renaming return for every doclet retained for it. *)
Theorem X1_create_returns_iff `{SphinxJs} (input : doclets_by_class_t) :
  succeeds (PyodideAnalyzer.create_js_doclets input)
  <-> exists items,
        PyodideAnalyzer.select_items input = Ok items
        /\ forall b, b ∈ bucket_names ->
             Forall (fun json => succeeds (produce json))
               (retained (items_of b items)).
Proof.
  split.
  - intros [js Hrun]. destruct (create_inv _ _ Hrun) as [Hsel Hinv].
    eexists. split; [exact Hsel|]. intros b Hb.
    destruct (Hinv b) as [Hin _]. destruct (Hin Hb) as (objs & Hc & _).
    apply comprehension_Forall2 in Hc. clear -Hc.
    induction Hc as [|d o ds objs Hp _ IH]; constructor; [now exists o | exact IH].
  - intros (items & Hsel & Hall). rewrite select_items_eq in Hsel.
    destruct (forallb _ input) eqn:Hok; [|discriminate]. injection Hsel as <-.
    apply create_succeeds; [exact Hok|]. intros b Hb.
    now apply comprehension_succeeds, Hall.
Qed.

(** X2: when the categorizer returns, [js_docs] has the three bucket names
    as its keys and no other, and every bucket has the two sub-buckets
    "attribute" and "function", in that order. *)
Theorem X2_js_docs_shape `{SphinxJs}
    (input : doclets_by_class_t) (js : js_docs_t) :
  PyodideAnalyzer.create_js_doclets input = Ok js ->
  dom js = list_to_set bucket_names
  /\ forall b bk, js !! b = Some bk ->
       PyDict.keys bk = ["attribute"; "function"].
Proof.
  intros Hrun. destruct (create_inv _ _ Hrun) as [_ Hinv]. split.
  - apply set_eq. intros b. rewrite elem_of_dom, elem_of_list_to_set.
    destruct (Hinv b) as [Hin Hout]. split.
    + intros [bk Hbk]. destruct (decide (b ∈ bucket_names)) as [|Hn]; [assumption|].
      rewrite (Hout Hn) in Hbk. discriminate.
    + intros Hb. destruct (Hin Hb) as (objs & _ & ->). eauto.
  - intros b bk Hbk. destruct (Hinv b) as [Hin Hout].
    destruct (decide (b ∈ bucket_names)) as [Hb|Hn].
    + destruct (Hin Hb) as (objs & _ & Hj). rewrite Hj in Hbk.
      now injection Hbk as <-.
    + rewrite (Hout Hn) in Hbk. discriminate.
Qed.

Lemma X2_js_docs_shape_witness :
  @PyodideAnalyzer.create_js_doclets demo_inner demo_input = Ok demo_js_docs
  /\ dom demo_js_docs = list_to_set bucket_names.
Proof.
  split; [vm_compute; reflexivity|].
  apply (@X2_js_docs_shape demo_inner demo_input demo_js_docs).
  vm_compute; reflexivity.
Defined.

Lemma of_kind_lengths (objs : list IrObject) :
  Forall (fun o => kind o = "attribute" \/ kind o = "function") objs ->
  length (of_kind "attribute" objs) + length (of_kind "function" objs)
  = length objs.
Proof.
  unfold of_kind. induction 1 as [|o objs [E|E] _ IH]; [reflexivity| |];
    cbn [List.filter]; rewrite E; cbn; lia.
Qed.

(** X3: when the categorizer returns, every doclet retained for a bucket
    is in one of its two sub-buckets and in one only: the sizes of the two
    sub-buckets add up to the number of doclets of the selected group that
    are not private. *)
Theorem X3_sub_buckets_partition `{SphinxJs}
    (input : doclets_by_class_t) (js : js_docs_t) (b : string) :
  PyodideAnalyzer.create_js_doclets input = Ok js ->
  b ∈ bucket_names ->
  exists items attrs funcs,
    PyodideAnalyzer.select_items input = Ok items
    /\ js !! b = Some [("attribute", attrs); ("function", funcs)]
    /\ length attrs + length funcs = length (retained (items_of b items))
    /\ (forall o, o ∈ attrs -> o ∉ funcs).
Proof.
  intros Hrun Hb. destruct (create_inv _ _ Hrun) as [Hsel Hinv].
  destruct (Hinv b) as [Hin _]. destruct (Hin Hb) as (objs & Hc & Hjs).
  eexists _, _, _. split; [exact Hsel|]. split; [exact Hjs|].
  apply comprehension_Forall2 in Hc. split.
  - rewrite (Forall2_length _ _ _ Hc). apply of_kind_lengths.
    apply Forall_forall. intros o Ho.
    destruct (Forall2_elem_r _ _ _ _ Hc Ho) as (json & _ & Hp).
    rewrite (produce_kind _ _ Hp). apply final_kind_cases.
  - intros o Ha Hf. apply elem_of_kind in Ha as [_ Ha].
    apply elem_of_kind in Hf as [_ Hf]. congruence.
Qed.

Lemma X3_sub_buckets_partition_witness :
  @PyodideAnalyzer.create_js_doclets demo_inner demo_input = Ok demo_js_docs
  /\ "PyProxy" ∈ bucket_names
  /\ exists items attrs funcs,
    PyodideAnalyzer.select_items demo_input = Ok items
    /\ demo_js_docs !! "PyProxy" = Some [("attribute", attrs); ("function", funcs)]
    /\ length attrs + length funcs = length (retained (items_of "PyProxy" items))
    /\ (forall o, o ∈ attrs -> o ∉ funcs).
Proof.
  split; [vm_compute; reflexivity|]. split; [unfold bucket_names; set_solver|].
  apply (@X3_sub_buckets_partition demo_inner demo_input demo_js_docs "PyProxy").
  - vm_compute; reflexivity.
  - unfold bucket_names; set_solver.
Defined.

(** X4: the renaming is idempotent: a name it has put in brackets, or left
    alone, is left alone when it is applied again, so an object that the
    lookup hands out twice ends with the same name as one handed out once. *)
Theorem X4_bracket_name_idempotent (obj o : IrObject) :
  PyodideAnalyzer.bracket_name obj = Ok o ->
  PyodideAnalyzer.bracket_name o = Ok o.
Proof.
  intros Hb. destruct (bracket_name_spec _ _ Hb) as [[_ ->]|[_ ->]].
  - reflexivity.
  - exact Hb.
Qed.

Lemma X4_bracket_name_idempotent_witness :
  PyodideAnalyzer.bracket_name (mkIr (quoted "foo") "attribute" "" false)
  = Ok (mkIr "[foo]" "attribute" "" false)
  /\ PyodideAnalyzer.bracket_name (mkIr "[foo]" "attribute" "" false)
     = Ok (mkIr "[foo]" "attribute" "" false).
Proof.
  split; [reflexivity|].
  apply (X4_bracket_name_idempotent (mkIr (quoted "foo") "attribute" "" false)).
  reflexivity.
Defined.

Lemma strip_slashes_idem (key : list string) :
  PyodideAnalyzer.strip_slashes (PyodideAnalyzer.strip_slashes key)
  = PyodideAnalyzer.strip_slashes key.
Proof.
  unfold PyodideAnalyzer.strip_slashes. induction key as [|x key IH]; [reflexivity|].
  cbn [List.filter]. destruct (negb (PyStr.contains "/" x)) eqn:E; [|exact IH].
  cbn [List.filter]. now rewrite E, IH.
Qed.

Lemma select_step_stripped (items : PyDict.t (list doclet))
    (e : list string * list doclet) :
  select_step items (PyodideAnalyzer.strip_slashes (fst e), snd e)
  = select_step items e.
Proof.
  unfold select_step, matches_globals, matches_pyodide, matches_pyproxy.
  cbn [fst snd]. now rewrite strip_slashes_idem.
Qed.

Lemma select_fold_stripped (input : doclets_by_class_t) :
  forall items,
  fold_left select_step (strip_keys input) items
  = fold_left select_step input items.
Proof.
  induction input as [|e input IH]; intros items; [reflexivity|].
  cbn [strip_keys map fold_left]. rewrite select_step_stripped. apply IH.
Qed.

Lemma key_ok_stripped (input : doclets_by_class_t) :
  forallb (fun e => key_ok (fst e)) (strip_keys input)
  = forallb (fun e => key_ok (fst e)) input.
Proof.
  induction input as [|e input IH]; [reflexivity|].
  cbn [strip_keys map forallb fst]. unfold key_ok at 1.
  rewrite strip_slashes_idem. fold (key_ok (fst e)). f_equal. exact IH.
Qed.

(** X5: the components of a key that contain a slash play no part: the
    categorizer does on an input what it does on the input whose keys have
    lost those components. *)
Theorem X5_slashed_components_ignored `{SphinxJs} (input : doclets_by_class_t) :
  PyodideAnalyzer.select_items (strip_keys input)
  = PyodideAnalyzer.select_items input
  /\ PyodideAnalyzer.create_js_doclets (strip_keys input)
     = PyodideAnalyzer.create_js_doclets input.
Proof.
  assert (Hs : PyodideAnalyzer.select_items (strip_keys input)
               = PyodideAnalyzer.select_items input).
  { now rewrite !select_items_eq, key_ok_stripped, select_fold_stripped. }
  split; [exact Hs|]. unfold PyodideAnalyzer.create_js_doclets. now rewrite Hs.
Qed.

(** X6: one group whose key has no component left once those with a slash
    are dropped is enough for the categorizer to raise [IndexError],
    whatever the other groups and whatever the doclets; no doclet is looked
    up before. *)
Theorem X6_empty_key_raises_IndexError `{SphinxJs}
    (input : doclets_by_class_t) (key : list string) (group : list doclet) :
  (key, group) ∈ input ->
  PyodideAnalyzer.strip_slashes key = [] ->
  PyodideAnalyzer.select_items input = Raise IndexError
  /\ PyodideAnalyzer.create_js_doclets input = Raise IndexError.
Proof.
  intros Hin Hk.
  assert (Hf : forallb (fun e => key_ok (fst e)) input = false).
  { destruct (forallb _ input) eqn:E; [|reflexivity].
    rewrite forallb_forall in E. apply list_elem_of_In in Hin.
    specialize (E _ Hin). cbn [fst] in E. unfold key_ok in E.
    rewrite Hk in E. discriminate. }
  split; [now rewrite select_items_eq, Hf | now apply create_raises_on_empty_key].
Qed.

Lemma X6_empty_key_raises_IndexError_witness :
  let input := [(["./"; "pyproxy."; "PyProxyClass"],
                 [mk_doclet "type" "member" None]);
                (["./"], [mk_doclet "foo" "function" None])] in
  (["./"], [mk_doclet "foo" "function" None]) ∈ input
  /\ PyodideAnalyzer.strip_slashes ["./"] = []
  /\ PyodideAnalyzer.select_items input = Raise IndexError
  /\ @PyodideAnalyzer.create_js_doclets demo_inner input = Raise IndexError.
Proof.
  intros input.
  assert (Hin : (["./"], [mk_doclet "foo" "function" None]) ∈ input)
    by (apply elem_of_cons; right; apply elem_of_cons; left; reflexivity).
  split; [exact Hin|]. split; [reflexivity|].
  apply (@X6_empty_key_raises_IndexError demo_inner input ["./"]
           [mk_doclet "foo" "function" None] Hin).
  reflexivity.
Defined.

Section Lookup.
Context `{SphinxJs}.

Lemma produce_lookup (json : doclet) (o : IrObject) :
  produce json = Ok o ->
  exists longname path obj0,
    json !! "longname" = Some longname
    /\ parse_path longname = Ok path
    /\ get_object path (kind o) = Ok obj0
    /\ description o = description obj0
    /\ is_Function o = is_Function obj0.
Proof.
  intros Hp. pose proof (produce_kind _ _ Hp) as Hk. unfold produce in Hp.
  destruct (PyodideAnalyzer.get_object_from_json json) as [o1|] eqn:Hg;
    [|discriminate].
  cbn [bind] in Hp. apply bracket_name_kind in Hp as (_ & Hd & Hf).
  unfold PyodideAnalyzer.get_object_from_json, getitem,
    PyodideAnalyzer.longname_to_path in Hg.
  destruct (json !! "longname") as [ln|]; [|discriminate]. cbn [bind] in Hg.
  destruct (parse_path ln) as [path|] eqn:Hpa; [|discriminate]. cbn [bind] in Hg.
  unfold final_kind in Hk.
  destruct (json !! "kind") as [k|]; [|discriminate]. cbn [bind] in Hg.
  rewrite <- Hk in Hg.
  destruct (get_object path (kind o)) as [obj0|] eqn:Hlk; [|discriminate].
  cbn [bind] in Hg. injection Hg as <-.
  exists ln, path, obj0. now repeat split.
Qed.

End Lookup.

(** X7: when the categorizer returns, every object of a sub-bucket is
    what the lookup returned when asked, for the parsed long name of a
    doclet of the input, for an object of the kind that names the sub-bucket;
    its description and its class are those the lookup gave. *)
Theorem X7_lookup_kind_is_sub_bucket `{SphinxJs}
    (input : doclets_by_class_t) (js : js_docs_t)
    (b sub : string) (bk : bucket) (objs : list IrObject) (o : IrObject) :
  PyodideAnalyzer.create_js_doclets input = Ok js ->
  js !! b = Some bk -> (sub, objs) ∈ bk -> o ∈ objs ->
  exists json longname path obj0,
    json ∈ all_doclets input
    /\ json !! "longname" = Some longname
    /\ parse_path longname = Ok path
    /\ get_object path sub = Ok obj0
    /\ description o = description obj0
    /\ is_Function o = is_Function obj0.
Proof.
  intros Hrun Hb Hsub Ho.
  destruct (bucket_elem _ _ _ _ _ _ _ Hrun Hb Hsub Ho)
    as (_ & _ & Hk & json & Hj & _ & Hp).
  destruct (produce_lookup _ _ Hp) as (ln & path & obj0 & Hl & Hpa & Hg & Hd & Hf).
  rewrite Hk in Hg. exists json, ln, path, obj0. now repeat split.
Qed.

Lemma X7_lookup_kind_is_sub_bucket_witness :
  let o := mkIr "getBuffer" "function" "About getBuffer." true in
  let bk := [("attribute", [mkIr "type" "attribute" "About type." false]);
             ("function", [o])] in
  @PyodideAnalyzer.create_js_doclets demo_inner demo_input = Ok demo_js_docs
  /\ demo_js_docs !! "PyProxy" = Some bk
  /\ exists json longname path obj0,
    json ∈ all_doclets demo_input
    /\ json !! "longname" = Some longname
    /\ @parse_path demo_inner longname = Ok path
    /\ @get_object demo_inner path "function" = Ok obj0
    /\ description o = description obj0
    /\ is_Function o = is_Function obj0.
Proof.
  intros o bk. split; [vm_compute; reflexivity|]. split; [vm_compute; reflexivity|].
  apply (@X7_lookup_kind_is_sub_bucket demo_inner demo_input demo_js_docs
           "PyProxy" "function" bk [o] o).
  - vm_compute; reflexivity.
  - vm_compute; reflexivity.
  - apply elem_of_cons. right. apply elem_of_cons. left. reflexivity.
  - apply elem_of_cons. left. reflexivity.
Defined.

(** X8: when the categorizer returns, each bucket is read off the input:
    "PyProxy" holds the objects of the doclets, not private, of all the
    groups that pass the pyproxy test, in input order; "globals" and
    "pyodide" hold those of the last group that passes their test, and are
    empty (present, with two empty sub-buckets) when no group passes it. *)
Theorem X8_buckets_from_input `{SphinxJs}
    (input : doclets_by_class_t) (js : js_docs_t) :
  PyodideAnalyzer.create_js_doclets input = Ok js ->
  (exists objs,
     comprehension produce
       (retained (concat (groups_matching matches_pyproxy input))) = Ok objs
     /\ js !! "PyProxy" = Some (bucket_of objs))
  /\ (exists objs,
        comprehension produce
          (retained (default [] (last (groups_matching matches_globals input))))
        = Ok objs
        /\ js !! "globals" = Some (bucket_of objs))
  /\ (exists objs,
        comprehension produce
          (retained (default [] (last (groups_matching matches_pyodide input))))
        = Ok objs
        /\ js !! "pyodide" = Some (bucket_of objs)).
Proof.
  intros Hrun. destruct (create_inv _ _ Hrun) as [_ Hinv].
  destruct (select_fold_lookups input [("PyProxy", [])] [] eq_refl)
    as (Hx & Hg & Ho).
  assert (Hlast : forall (gs : list (list doclet)) k r,
            r = last_or gs (Raise (KeyError k)) ->
            match r with Ok g => g | Raise _ => [] end = default [] (last gs)).
  { intros gs k r ->. unfold last_or. now destruct (last gs). }
  repeat split.
  - destruct (Hinv "PyProxy") as [Hin _].
    destruct Hin as (objs & Hc & Hj); [unfold bucket_names; set_solver|].
    exists objs. split; [|exact Hj]. unfold items_of in Hc. now rewrite Hx in Hc.
  - destruct (Hinv "globals") as [Hin _].
    destruct Hin as (objs & Hc & Hj); [unfold bucket_names; set_solver|].
    exists objs. split; [|exact Hj]. unfold items_of in Hc.
    now rewrite (Hlast _ "globals" _ Hg) in Hc.
  - destruct (Hinv "pyodide") as [Hin _].
    destruct Hin as (objs & Hc & Hj); [unfold bucket_names; set_solver|].
    exists objs. split; [|exact Hj]. unfold items_of in Hc.
    now rewrite (Hlast _ "pyodide" _ Ho) in Hc.
Qed.

Lemma X8_buckets_from_input_witness :
  @PyodideAnalyzer.create_js_doclets demo_inner demo_input = Ok demo_js_docs
  /\ exists objs,
       comprehension (@produce demo_inner)
         (retained (concat (groups_matching matches_pyproxy demo_input)))
       = Ok objs
       /\ demo_js_docs !! "PyProxy" = Some (bucket_of objs).
Proof.
  split; [vm_compute; reflexivity|].
  apply (@X8_buckets_from_input demo_inner demo_input demo_js_docs).
  vm_compute; reflexivity.
Defined.

(** ** Further properties of the directives *)

Section Directives.
Context `{SphinxJs} `{Sphinx}.

Lemma cell_paragraph (text : string) :
  exists a c, JsDocSummary.cell text = Element entry [] [Element paragraph a c].
Proof.
  unfold JsDocSummary.cell.
  destruct (nested_parse text) as [|[s|[] a c] l]; eauto.
Qed.

Lemma append_row_two (t1 t2 : string) :
  two_paragraph_row (JsDocSummary.append_row [t1; t2]).
Proof.
  unfold two_paragraph_row, JsDocSummary.append_row. cbn [map].
  destruct (cell_paragraph t1) as (a1 & c1 & ->).
  destruct (cell_paragraph t2) as (a2 & c2 & ->).
  now exists a1, c1, a2, c2.
Qed.

End Directives.

(** X9: whatever the nested parse returns for a cell text (nothing, a
    paragraph first, or something else first), the table that [format_table]
    builds has one row per item, and every row has exactly two cells, each
    holding exactly one paragraph: the table always fits its two columns. *)
Theorem X9_table_rows_well_formed `{SphinxJs} `{Sphinx}
    (options : gset string) (items : list (string * string * string * string)) :
  exists spec tbl,
    JsDocSummary.format_table options items = [spec; tbl]
    /\ length (table_rows tbl) = length items
    /\ Forall two_paragraph_row (table_rows tbl).
Proof.
  destruct (format_table_shape options items) as (spec & tbl & Hf & _ & _ & Hr).
  exists spec, tbl. split; [exact Hf|]. rewrite Hr. split; [apply length_map|].
  apply Forall_forall. intros r Hin.
  apply list_elem_of_fmap in Hin as (item & -> & _). apply append_row_two.
Qed.

Lemma prefix_refl (u : string) : String.prefix u u = true.
Proof.
  induction u as [|a u IH]; [reflexivity|]. cbn [String.prefix].
  destruct (ascii_dec a a); [exact IH | contradiction].
Qed.

Lemma join_prefix (sep x : string) (l : list string) :
  String.prefix x (PyStr.join sep (x :: l)) = true.
Proof.
  destruct l as [|y l]; cbn [PyStr.join]; [apply prefix_refl|].
  apply prefix_append.
Qed.

(** X10: when the categorizer returns, the full-content directive, for
    each of the three bucket names, hands the parser a text that starts with
    the [js:module] line of that name, built from one block more than the
    bucket has objects; it does not raise before the parser is called. *)
Theorem X10_content_text `{SphinxJs} `{Sphinx}
    (input : doclets_by_class_t) (js : js_docs_t) (b : string) :
  PyodideAnalyzer.create_js_doclets input = Ok js ->
  b ∈ bucket_names ->
  exists attrs funcs rst text,
    js !! b = Some [("attribute", attrs); ("function", funcs)]
    /\ JsDocContent.run_rst js [b] = Ok rst
    /\ length (concat rst) = 1 + length attrs + length funcs
    /\ JsDocContent.run js [b] = rst_parse text
    /\ String.prefix (".. js:module:: " +:+ b) text = true.
Proof.
  intros Hrun Hb. destruct (create_inv _ _ Hrun) as [_ Hinv].
  destruct (Hinv b) as [Hin _]. destruct (Hin Hb) as (objs & _ & Hjs).
  assert (Hr : JsDocContent.run_rst js [b]
               = Ok [[".. js:module:: " +:+ b];
                     map JsDocContent.get_rst (of_kind "attribute" objs);
                     map JsDocContent.get_rst (of_kind "function" objs)]).
  { unfold JsDocContent.run_rst, getitem. cbn [PyList.first bind].
    rewrite Hjs. reflexivity. }
  eexists _, _, _, _. split; [exact Hjs|]. split; [exact Hr|].
  split; [|split].
  - cbn [concat]. rewrite !length_app, !length_map. cbn [length]. lia.
  - unfold JsDocContent.run. rewrite Hr. reflexivity.
  - cbn [map]. apply join_prefix.
Qed.

Lemma X10_content_text_witness :
  @PyodideAnalyzer.create_js_doclets demo_inner demo_input = Ok demo_js_docs
  /\ "globals" ∈ bucket_names
  /\ exists attrs funcs rst text,
    demo_js_docs !! "globals" = Some [("attribute", attrs); ("function", funcs)]
    /\ @JsDocContent.run_rst demo_inner demo_js_docs ["globals"] = Ok rst
    /\ length (concat rst) = 1 + length attrs + length funcs
    /\ @JsDocContent.run demo_inner demo_sphinx demo_js_docs ["globals"]
       = @rst_parse demo_sphinx text
    /\ String.prefix (".. js:module:: " +:+ "globals") text = true.
Proof.
  split; [vm_compute; reflexivity|]. split; [unfold bucket_names; set_solver|].
  apply (@X10_content_text demo_inner demo_sphinx demo_input demo_js_docs "globals").
  - vm_compute; reflexivity.
  - unfold bucket_names; set_solver.
Defined.

Lemma replace_from_absent (old new s : string) :
  PyStr.contains old s = false -> PyStr.replace_from old new 0 s = s.
Proof.
  induction s as [|c s IH]; [reflexivity|]. cbn [PyStr.contains PyStr.replace_from].
  intros Hc. apply orb_false_iff in Hc as [Hp Hs]. rewrite Hp. f_equal. now apply IH.
Qed.

Lemma replace_absent (c : ascii) (old' new s : string) :
  PyStr.contains (String c old') s = false ->
  PyStr.replace (String c old') new s = s.
Proof. apply replace_from_absent. Qed.

(** X11: for a description without a colon, the library is given the
    description as it is; and when what the library returns does not contain
    the escape token, the summary is what the library returned, untouched. *)
Theorem X11_summary_without_colons `{Sphinx} (descr : string) :
  PyStr.contains ":" descr = false ->
  PyStr.contains JsDocSummary.colon_esc (autosummary_extract_summary [descr])
    = false ->
  JsDocSummary.extract_summary descr = autosummary_extract_summary [descr].
Proof.
  intros Hd Hl. unfold JsDocSummary.extract_summary.
  rewrite (replace_absent ":"%char "" _ _ Hd).
  now apply (replace_absent "e"%char).
Qed.

Lemma X11_summary_without_colons_witness :
  PyStr.contains ":" "Load a package." = false
  /\ PyStr.contains JsDocSummary.colon_esc
       (@autosummary_extract_summary demo_sphinx ["Load a package."]) = false
  /\ @JsDocSummary.extract_summary demo_sphinx "Load a package."
     = @autosummary_extract_summary demo_sphinx ["Load a package."].
Proof.
  split; [reflexivity|]. split; [reflexivity|].
  apply (@X11_summary_without_colons demo_sphinx "Load a package."); reflexivity.
Defined.

Lemma matching_concat_elem p (input : doclets_by_class_t)
    (key : list string) (group : list doclet) (json : doclet) :
  (key, group) ∈ input -> p key = true -> json ∈ group ->
  json ∈ concat (groups_matching p input).
Proof.
  induction input as [|e input IH]; intros Hin Hp Hj.
  - now apply elem_of_nil in Hin.
  - rewrite groups_matching_cons. apply elem_of_cons in Hin as [<-|Hin].
    + cbn [fst snd]. rewrite Hp. cbn [concat]. apply elem_of_app. now left.
    + destruct (p (fst e)); [cbn [concat]; apply elem_of_app; right|]; now apply IH.
Qed.

(** X12: every group that passes the pyproxy test is processed: when the
    lookup or the renaming does not return for one of its doclets that is
    not private, the categorizer does not return either. *)
Theorem X12_failed_lookup_aborts `{SphinxJs}
    (input : doclets_by_class_t) (key : list string) (group : list doclet)
    (json : doclet) :
  (key, group) ∈ input -> matches_pyproxy key = true ->
  json ∈ group -> PyodideAnalyzer.is_private json = false ->
  ~ succeeds (produce json) ->
  ~ succeeds (PyodideAnalyzer.create_js_doclets input).
Proof.
  intros Hin Hm Hj Hpriv Hfail [js Hrun].
  destruct (create_inv _ _ Hrun) as [_ Hinv].
  destruct (Hinv "PyProxy") as [Hp _].
  destruct Hp as (objs & Hc & _); [unfold bucket_names; set_solver|].
  destruct (select_fold_lookups input [("PyProxy", [])] [] eq_refl) as (Hx & _).
  unfold items_of in Hc. rewrite Hx in Hc. cbn [app] in Hc.
  apply comprehension_Forall2 in Hc.
  assert (Hr : json ∈ retained (concat (groups_matching matches_pyproxy input))).
  { apply elem_retained. split; [|exact Hpriv].
    now apply (matching_concat_elem _ _ key group). }
  clear -Hc Hr Hfail. induction Hc as [|d o ds objs Hd _ IH].
  - now apply elem_of_nil in Hr.
  - apply elem_of_cons in Hr as [->|Hr]; [|now apply IH].
    apply Hfail. now exists o.
Qed.

Lemma X12_failed_lookup_aborts_witness :
  let json : doclet := <["kind" := "function"]> ∅ in
  let input := [(["./"; "pyproxy."; "PyProxyClass"], [json])] in
  (["./"; "pyproxy."; "PyProxyClass"], [json]) ∈ input
  /\ matches_pyproxy ["./"; "pyproxy."; "PyProxyClass"] = true
  /\ json ∈ [json]
  /\ PyodideAnalyzer.is_private json = false
  /\ ~ succeeds (@produce demo_inner json)
  /\ ~ succeeds (@PyodideAnalyzer.create_js_doclets demo_inner input).
Proof.
  intros json input.
  assert (Hin : (["./"; "pyproxy."; "PyProxyClass"], [json]) ∈ input)
    by (apply elem_of_cons; left; reflexivity).
  assert (Hj : json ∈ [json]) by (apply elem_of_cons; left; reflexivity).
  assert (Hf : ~ succeeds (@produce demo_inner json))
    by (intros [o Ho]; vm_compute in Ho; discriminate).
  split; [exact Hin|]. split; [reflexivity|]. split; [exact Hj|].
  split; [reflexivity|]. split; [exact Hf|].
  exact (@X12_failed_lookup_aborts demo_inner input _ _ json Hin eq_refl Hj
           eq_refl Hf).
Defined.

(** X13: when the categorizer returns, the summary directive, for each of
    the three bucket names, returns the empty list of nodes exactly when both
    sub-buckets of the bucket are empty. *)
Theorem X13_summary_empty_iff `{SphinxJs} `{Sphinx}
    (options : gset string) (input : doclets_by_class_t) (js : js_docs_t)
    (b : string) :
  PyodideAnalyzer.create_js_doclets input = Ok js ->
  b ∈ bucket_names ->
  JsDocSummary.run options js [b] = Ok []
  <-> js !! b = Some [("attribute", []); ("function", [])].
Proof.
  intros Hrun Hb. destruct (create_inv _ _ Hrun) as [_ Hinv].
  destruct (Hinv b) as [Hin _]. destruct (Hin Hb) as (objs & _ & Hjs).
  unfold JsDocSummary.run, getitem. cbn [PyList.first bind]. rewrite Hjs.
  unfold bucket_of. cbn [bind map concat].
  destruct (of_kind "attribute" objs) as [|oa la];
    destruct (of_kind "function" objs) as [|of' lf];
    cbn [JsDocSummary.run_group]; split; intros Heq;
    try reflexivity; try discriminate.
Qed.

Lemma X13_summary_empty_iff_witness :
  let input := [(["./"; "pyodide."; "globalThis"],
                 [mk_doclet "hidden" "function" (Some "private")])] in
  let js : js_docs_t :=
    <["PyProxy" := PyodideAnalyzer.get_val]>
      (<["pyodide" := PyodideAnalyzer.get_val]>
         (<["globals" := PyodideAnalyzer.get_val]> ∅)) in
  @PyodideAnalyzer.create_js_doclets demo_inner input = Ok js
  /\ "globals" ∈ bucket_names
  /\ (@JsDocSummary.run demo_inner demo_sphinx ∅ js ["globals"] = Ok []
      <-> js !! "globals" = Some [("attribute", []); ("function", [])]).
Proof.
  intros input js.
  split; [vm_compute; reflexivity|]. split; [unfold bucket_names; set_solver|].
  apply (@X13_summary_empty_iff demo_inner demo_sphinx ∅ input js "globals").
  - vm_compute; reflexivity.
  - unfold bucket_names; set_solver.
Defined.
